(** * metalsmith-mapsite: the sitemap plugin of [lib/index.js]

    A shallow embedding of the plugin and of the small part of JavaScript
    it relies on.  JavaScript values are a tagged union, objects are
    association lists in property order, and code that can throw runs in an
    error monad.  The npm packages and host services the plugin calls
    ([slash], [minimatch], [Date], [sitemap], [fs] with [JSON.parse]) are
    the methods of the class [Runtime]; everything written in
    [lib/index.js] itself, Node's [path] functions and the few lines of
    [multimatch], [arrify], [lodash.pickby] and [is] are definitions. *)

From Stdlib Require Import String Ascii List Bool Arith ZArith QArith Lia.
From Stdlib Require Import DecimalString.
Import ListNotations.
Local Close Scope Q_scope.
Local Open Scope nat_scope.
Local Open Scope list_scope.
Local Open Scope string_scope.

Set Implicit Arguments.
Set Warnings "-register-all".

(** ** Strings: the [String.prototype] methods the plugin calls *)

Module Str.

(** [input.endsWith(suffix)] *)
Definition endsWith (input suffix : string) : bool :=
  (String.length suffix <=? String.length input)%nat
  && String.eqb
       (substring (String.length input - String.length suffix)
                  (String.length suffix) input)
       suffix.

(** [input.slice(from, to)] for [0 <= from] and [0 <= to]. *)
Definition slice (input : string) (from to : nat) : string :=
  substring from (to - from) input.

Definition isEmpty (s : string) : bool :=
  match s with EmptyString => true | String _ _ => false end.

(** [s[0] === c] *)
Definition startsWithChar (c : ascii) (s : string) : bool :=
  match s with
  | EmptyString => false
  | String a _ => Ascii.eqb a c
  end.

Definition tail (s : string) : string :=
  match s with EmptyString => EmptyString | String _ t => t end.

End Str.

(** ** JavaScript values *)

(** A JavaScript number: the exceptional values and the finite ones, which
    are kept as rationals (the plugin never does arithmetic on a number: it
    only tests one for [NaN] and for truthiness, where [-0] behaves as
    [0]). *)
Inductive number : Type :=
| NaN
| Infinity (negative : bool)
| Fin (q : Q).

Inductive value : Type :=
| VUndefined
| VNull
| VBool (b : bool)
| VNumber (n : number)
| VString (s : string)
| VDate (time : option Z)            (* a [Date]; [None] is the invalid date *)
| VBuffer (bytes : string)           (* a Node [Buffer] *)
| VArray (items : list value)
| VObject (props : list (string * value)).

(** A plain object: its own properties in the order they were added, which
    is the order JavaScript enumerates them in (keys that are array indices,
    which it would enumerate first, get no special treatment; no statement
    below depends on the order of keys). *)
Definition object : Type := list (string * value).

Definition number_is_nan (n : number) : bool :=
  match n with NaN => true | _ => false end.

Definition number_is_zero (n : number) : bool :=
  match n with Fin q => Qeq_bool q 0%Q | _ => false end.

(** ToBoolean *)
Definition truthy (v : value) : bool :=
  match v with
  | VUndefined | VNull => false
  | VBool b => b
  | VNumber n => negb (number_is_nan n || number_is_zero n)
  | VString s => negb (Str.isEmpty s)
  | VDate _ | VBuffer _ | VArray _ | VObject _ => true
  end.

(** [a || b] *)
Definition js_or (a b : value) : value := if truthy a then a else b.

(** [lodash.isundefined] *)
Definition isundefined (v : value) : bool :=
  match v with VUndefined => true | _ => false end.

(** [is.string]: the value is a string. *)
Definition is_string (v : value) : bool :=
  match v with VString _ => true | _ => false end.

(** *** Objects *)

Fixpoint lookup (k : string) (o : object) : option value :=
  match o with
  | [] => None
  | (k', v) :: rest => if String.eqb k k' then Some v else lookup k rest
  end.

(** [o[k]] on an object: [undefined] when there is no such property. *)
Definition prop (o : object) (k : string) : value :=
  match lookup k o with Some v => v | None => VUndefined end.

(** [k in o] *)
Definition has_key (k : string) (o : object) : bool :=
  match lookup k o with Some _ => true | None => false end.

(** [o[k] = v]: an existing property keeps its place, a new one goes last. *)
Fixpoint set (k : string) (v : value) (o : object) : object :=
  match o with
  | [] => [(k, v)]
  | (k', v') :: rest =>
      if String.eqb k k' then (k', v) :: rest else (k', v') :: set k v rest
  end.

(** [Object.keys(o)] *)
Definition keys (o : object) : list string := map fst o.

(** [lodash.pickby(o, predicate)] *)
Definition pickby (o : object) (predicate : value -> bool) : object :=
  filter (fun kv => predicate (snd kv)) o.

(** ** Exceptions *)

Inductive error : Type :=
| ErrHostnameRequired      (* Error: "hostname" option required *)
| ErrJsonFileExtension     (* Error: "jsonFile" must point to a JSON file
                              with extension .json *)
| TypeError                (* a property read on null or undefined, a value
                              of the wrong type handed to a library *)
| ErrExternal (what : string).   (* thrown by fs, JSON.parse or sitemap *)

Inductive result (A : Type) : Type :=
| Ok (a : A)
| Throw (e : error).
Arguments Ok {A} a.
Arguments Throw {A} e.

Definition bind {A B : Type} (m : result A) (f : A -> result B) : result B :=
  match m with
  | Ok a => f a
  | Throw e => Throw e
  end.

Notation "x <- m ;; k" := (bind m (fun x => k))
  (at level 61, m at next level, right associativity).

(** [v.k]: reading a property throws on [null] and [undefined]; the names the
    plugin reads ([hostname], [private], [canonical], [path], ...) are own
    properties of plain objects only, so any other value gives [undefined]. *)
Definition get (v : value) (k : string) : result value :=
  match v with
  | VUndefined | VNull => Throw TypeError
  | VObject o => Ok (prop o k)
  | _ => Ok VUndefined
  end.

(** ** Node's [path] module (POSIX flavour)

    The flavour whose only separator is the forward slash, which is what
    the path of a build file has once it went through [slash].  Both
    functions scan the string from its last character to its first, as
    Node's do; the index [-1] of the JavaScript code is [None] here. *)

Module path.

Definition isSlash (c : ascii) : bool := Ascii.eqb c "/"%char.
Definition isDot (c : ascii) : bool := Ascii.eqb c "."%char.

(** The loop of [basename]; [k] is [i + 1]. *)
Fixpoint basename_scan (p : string) (k : nat)
         (start : nat) (end_ : option nat) (matchedSlash : bool)
  : nat * option nat :=
  match k with
  | O => (start, end_)
  | S i =>
      match String.get i p with
      | None => (start, end_)
      | Some c =>
          if isSlash c then
            if negb matchedSlash then (i + 1, end_)
            else basename_scan p i start end_ matchedSlash
          else
            match end_ with
            | None => basename_scan p i start (Some (i + 1)) false
            | Some _ => basename_scan p i start end_ matchedSlash
            end
      end
  end.

(** [path.basename(p)] *)
Definition basename (p : string) : string :=
  match basename_scan p (String.length p) 0 None true with
  | (_, None) => ""
  | (start, Some e) => Str.slice p start e
  end.

Record extState : Type := {
  startDot : option nat;
  startPart : nat;
  end_ : option nat;
  matchedSlash : bool;
  preDotState : Z
}.

(** The loop of [extname]; [k] is [i + 1]. *)
Fixpoint extname_scan (p : string) (k : nat) (st : extState) : extState :=
  match k with
  | O => st
  | S i =>
      match String.get i p with
      | None => st
      | Some c =>
          if isSlash c then
            if negb (matchedSlash st) then
              {| startDot := startDot st; startPart := i + 1;
                 end_ := end_ st; matchedSlash := matchedSlash st;
                 preDotState := preDotState st |}
            else extname_scan p i st
          else
            let st1 :=
              match end_ st with
              | None =>
                  {| startDot := startDot st; startPart := startPart st;
                     end_ := Some (i + 1); matchedSlash := false;
                     preDotState := preDotState st |}
              | Some _ => st
              end in
            let st2 :=
              if isDot c then
                match startDot st1 with
                | None =>
                    {| startDot := Some i; startPart := startPart st1;
                       end_ := end_ st1; matchedSlash := matchedSlash st1;
                       preDotState := preDotState st1 |}
                | Some _ =>
                    if negb (preDotState st1 =? 1)%Z then
                      {| startDot := startDot st1; startPart := startPart st1;
                         end_ := end_ st1; matchedSlash := matchedSlash st1;
                         preDotState := 1 |}
                    else st1
                end
              else
                match startDot st1 with
                | Some _ =>
                    {| startDot := startDot st1; startPart := startPart st1;
                       end_ := end_ st1; matchedSlash := matchedSlash st1;
                       preDotState := (-1) |}
                | None => st1
                end in
            extname_scan p i st2
      end
  end.

Definition extname_init : extState :=
  {| startDot := None; startPart := 0; end_ := None;
     matchedSlash := true; preDotState := 0 |}.

(** [path.extname(p)] *)
Definition extname (p : string) : string :=
  let st := extname_scan p (String.length p) extname_init in
  match startDot st, end_ st with
  | Some d, Some e =>
      if (preDotState st =? 0)%Z
         || ((preDotState st =? 1)%Z
             && (d =? e - 1)%nat && (d =? startPart st + 1)%nat)
      then ""
      else Str.slice p d e
  | _, _ => ""
  end.

End path.

(** ** The runtime: packages and host services the plugin calls *)

Class Runtime : Type := {
  (** [slash(file)]: the path with its separators turned into slashes. *)
  slash : string -> string;
  (** [minimatch(file, glob)]: whether one glob matches one path. *)
  minimatch : string -> string -> bool;
  (** Number::toString and StringToNumber of the language. *)
  NumberToString : number -> string;
  StringToNumber : string -> number;
  (** [Date.prototype.toString] (local time). *)
  DateToString : option Z -> string;
  (** The time value of [new Date(v)]; [None] is [NaN], the invalid date. *)
  Date_new : value -> option Z;
  (** [Date.prototype.toUTCString] of a valid date. *)
  utcString : Z -> string;
  (** [sitemap.toString()] of a sitemap created for a host name, after the
      given entries were added in that order; the package may reject them. *)
  sitemap_toString : value -> list object -> result string;
  (** [JSON.parse(fs.readFileSync(file, 'utf8'))] *)
  readJSON : value -> result value
}.

Section Plugin.

Context {rt : Runtime}.

(** *** Coercions *)

(** ToString *)
Fixpoint ToString (v : value) : string :=
  match v with
  | VUndefined => "undefined"
  | VNull => "null"
  | VBool true => "true"
  | VBool false => "false"
  | VNumber n => NumberToString n
  | VString s => s
  | VDate t => DateToString t
  | VBuffer b => b
  | VArray items =>
      (fix join (l : list value) : string :=
         match l with
         | [] => ""
         | x :: rest =>
             let item :=
               match x with
               | VUndefined | VNull => ""
               | _ => ToString x
               end in
             match rest with
             | [] => item
             | _ :: _ => item ++ "," ++ join rest
             end
         end) items
  | VObject _ => "[object Object]"
  end.

(** ToNumber *)
Definition ToNumber (v : value) : number :=
  match v with
  | VUndefined => NaN
  | VNull => Fin 0
  | VBool b => Fin (if b then 1 else 0)
  | VNumber n => n
  | VString s => StringToNumber s
  | VDate (Some t) => Fin (inject_Z t)
  | VDate None => NaN
  | VBuffer _ | VArray _ | VObject _ => StringToNumber (ToString v)
  end.

(** The global [isNaN] *)
Definition isNaN (v : value) : bool := number_is_nan (ToNumber v).

(** [new Date(v).toUTCString()] *)
Definition toUTCString (v : value) : string :=
  match Date_new v with
  | Some t => utcString t
  | None => "Invalid Date"
  end.

(** *** [multimatch] *)

(** [arrify] *)
Definition arrify (v : value) : list value :=
  match v with
  | VUndefined | VNull => []
  | VArray items => items
  | _ => [v]
  end.

Definition mem (x : string) (l : list string) : bool :=
  existsb (String.eqb x) l.

(** [array-union] and [array-differ] *)
Definition union (a b : list string) : list string :=
  fold_left (fun acc x => if mem x acc then acc else (acc ++ [x])%list) b a.

Definition difference (a b : list string) : list string :=
  filter (fun x => negb (mem x b)) a.

(** [minimatch.match(list, glob)] *)
Definition minimatch_match (paths : list string) (glob : string)
  : list string :=
  filter (fun f => minimatch f glob) paths.

(** The function [multimatch] reduces the patterns with, from the empty
    result; a glob that is not a string makes [minimatch] throw. *)
Definition multimatch_step (paths : list string) (ret : list string)
           (pat : value) : result (list string) :=
  match pat with
  | VString glob =>
      if Str.startsWithChar "!"%char glob
      then Ok (difference ret (minimatch_match paths (Str.tail glob)))
      else Ok (union ret (minimatch_match paths glob))
  | _ => Throw TypeError
  end.

Fixpoint multimatch_reduce (paths : list string) (patterns : list value)
         (ret : list string) : result (list string) :=
  match patterns with
  | [] => Ok ret
  | pat :: rest =>
      ret' <- multimatch_step paths ret pat ;;
      multimatch_reduce paths rest ret'
  end.

(** [multimatch(paths, patterns)] *)
Definition multimatch (paths : list string) (patterns : value)
  : result (list string) :=
  let patterns := arrify patterns in
  match paths, patterns with
  | [], _ | _, [] => Ok []
  | _, _ => multimatch_reduce paths patterns []
  end.

(** *** The options, resolved (lines 53-62) *)

Record config : Type := {
  changefreq : value;
  hostname : value;
  lastmod : value;
  omitExtension : value;
  omitIndex : value;
  output : value;
  pattern : value;
  priority : value;
  staticURLs : value
}.

(** Lines 37-42: no options is the empty object, a string is the host
    name. *)
Definition normalizeOptions (opts : value) : value :=
  let opts := js_or opts (VObject []) in
  if is_string opts then VObject [("hostname", opts)] else opts.

(** [path.extname] of an arbitrary value: Node refuses what is not a
    string. *)
Definition extname_of (v : value) : result string :=
  match v with
  | VString s => Ok (path.extname s)
  | _ => Throw TypeError
  end.

(** Lines 49-51 *)
Definition checkJsonFile (opts : value) : result unit :=
  jsonFile <- get opts "jsonFile" ;;
  if truthy jsonFile then
    ext <- extname_of jsonFile ;;
    if negb (String.eqb ext ".json") then Throw ErrJsonFileExtension
    else Ok tt
  else Ok tt.

(** Lines 54-62: the options mapped to local variables, with defaults. *)
Definition defaults (opts : value) : result config :=
  o_changefreq <- get opts "changefreq" ;;
  o_hostname <- get opts "hostname" ;;
  o_lastmod <- get opts "lastmod" ;;
  o_omitExtension <- get opts "omitExtension" ;;
  o_omitIndex <- get opts "omitIndex" ;;
  o_output <- get opts "output" ;;
  o_pattern <- get opts "pattern" ;;
  o_priority <- get opts "priority" ;;
  o_jsonFile <- get opts "jsonFile" ;;
  Ok {| changefreq := js_or o_changefreq (VString "weekly");
        hostname := o_hostname;
        lastmod := o_lastmod;
        omitExtension := o_omitExtension;
        omitIndex := o_omitIndex;
        output := js_or o_output (VString "sitemap.xml");
        pattern := js_or o_pattern (VString "**/*.html");
        priority :=
          if isNaN o_priority then VNumber (Fin (1 # 2)) else o_priority;
        staticURLs := js_or o_jsonFile (VBool false) |}.

(** [plugin(opts)], up to the function it returns: the resolved options
    that function closes over.  A failed construction returns no function,
    so nothing is processed. *)
Definition plugin (opts : value) : result config :=
  let opts := normalizeOptions opts in
  o_hostname <- get opts "hostname" ;;
  if negb (truthy o_hostname) then Throw ErrHostnameRequired else
  _ <- checkJsonFile opts ;;
  defaults opts.

(** Lines 64-70 *)
Definition chompRight (input suffix : string) : string :=
  if Str.endsWith input suffix
  then Str.slice input 0 (String.length input - String.length suffix)
  else input.

(** *** The function [plugin] returns *)

Section Transform.

Variable cfg : config.

(** [match(file, pattern)[0]] *)
Definition first_match (m : list string) : value :=
  match m with
  | [] => VUndefined
  | f :: _ => VString f
  end.

(** Lines 82-94 *)
Definition check (file : string) (frontmatter : value) : result bool :=
  m <- multimatch [file] (pattern cfg) ;;
  if negb (truthy (first_match m)) then Ok false else
  private <- get frontmatter "private" ;;
  if truthy private then Ok false else
  Ok true.

(** Lines 99-118 of [buildUrl]: the value of [r] before the trailing
    slash is looked at. *)
Definition buildUrl_base (file : string) (frontmatter : value)
  : result string :=
  let normalizedFile := slash file in
  let r := "" in
  canonical <- get frontmatter "canonical" ;;
  let r :=
    match canonical with
    | VString c => if Str.isEmpty r then c else r
    | _ => r
    end in
  let r :=
    if Str.isEmpty r && truthy (omitIndex cfg)
       && String.eqb (path.basename normalizedFile) "index.html"
    then chompRight normalizedFile "index.html" else r in
  let r :=
    if Str.isEmpty r && truthy (omitExtension cfg)
    then chompRight normalizedFile (path.extname normalizedFile) else r in
  let r := if Str.isEmpty r then normalizedFile else r in
  Ok r.

(** Lines 97-123 *)
Definition buildUrl (file : string) (frontmatter : value)
  : result string :=
  r <- buildUrl_base file frontmatter ;;
  Ok (if negb (Str.endsWith r "/") then r ++ "/" else r).

(** Lines 135-143, and again 161-169: the entry before its url. *)
Definition metaEntry (frontmatter : value) : result object :=
  f_changefreq <- get frontmatter "changefreq" ;;
  f_priority <- get frontmatter "priority" ;;
  f_lastmod <- get frontmatter "lastmod" ;;
  let entry :=
    pickby [ ("changefreq", js_or f_changefreq (changefreq cfg));
             ("priority", js_or f_priority (priority cfg));
             ("lastmod", js_or f_lastmod (lastmod cfg)) ]
           (fun item => negb (isundefined item)) in
  Ok (if has_key "lastmod" entry
      then set "lastmod" (VString (toUTCString (prop entry "lastmod")))
             entry
      else entry).

(** Lines 135-146: the entry of a file that passed [check]. *)
Definition fileEntry (file : string) (frontmatter : value)
  : result object :=
  entry <- metaEntry frontmatter ;;
  url <- buildUrl file frontmatter ;;
  Ok (set "url" (VString url) entry).

(** Line 172: [hostname + "/" + frontmatter.path], or the empty string. *)
Definition staticUrl (path_ : value) : string :=
  if truthy path_
  then (ToString (hostname cfg) ++ "/") ++ ToString path_
  else "".

(** Lines 161-172: the entry of one record of the JSON file. *)
Definition staticEntry (frontmatter : value) : result object :=
  entry <- metaEntry frontmatter ;;
  path_ <- get frontmatter "path" ;;
  Ok (set "url" (VString (staticUrl path_)) entry).

(** [sitemap.add(entry)] *)
Definition sitemap_add (sitemap : list object) (entry : object)
  : list object :=
  (sitemap ++ [entry])%list.

(** The callback of [forEach], lines 125-150. *)
Definition processFile (files : object) (sitemap : list object)
           (file : string) : result (list object) :=
  let frontmatter := prop files file in
  included <- check file frontmatter ;;
  if negb included then Ok sitemap else
  entry <- fileEntry file frontmatter ;;
  Ok (sitemap_add sitemap entry).

(** The body of the [for ... in] loop, lines 156-176. *)
Definition processStatic (sitemap : list object) (frontmatter : value)
  : result (list object) :=
  entry <- staticEntry frontmatter ;;
  Ok (sitemap_add sitemap entry).

Fixpoint forEach {A S : Type} (f : S -> A -> result S) (xs : list A)
         (s : S) : result S :=
  match xs with
  | [] => Ok s
  | x :: rest => s' <- f s x ;; forEach f rest s'
  end.

Fixpoint chars (s : string) : list value :=
  match s with
  | EmptyString => []
  | String c rest => VString (String c EmptyString) :: chars rest
  end.

(** The values [staticObjects[i]] that [for (var i in staticObjects)]
    visits, for what [JSON.parse] can return. *)
Definition for_in_values (v : value) : list value :=
  match v with
  | VArray items => items
  | VObject props => map snd props
  | VString s => chars s
  | _ => []
  end.

(** Lines 125-150: the entries of the build files. *)
Definition fileEntries (files : object) : result (list object) :=
  forEach (processFile files) (keys files) [].

(** Lines 152-177: the entries of the JSON file are added after them. *)
Definition staticEntries (sitemap : list object)
  : result (list object) :=
  if truthy (staticURLs cfg) then
    staticObjects <- readJSON (staticURLs cfg) ;;
    forEach processStatic (for_in_values staticObjects) sitemap
  else Ok sitemap.

Definition collect (files : object) : result (list object) :=
  sitemap <- fileEntries files ;;
  staticEntries sitemap.

(** Lines 180-182: the value stored under the output path. *)
Definition artifact (xml : string) : value :=
  VObject [("contents", VBuffer xml)].

(** Lines 75-185: [function(files, metalsmith, done)]; the result is
    the file mapping when [done] is called. *)
Definition run (files : object) : result object :=
  sitemap <- collect files ;;
  xml <- sitemap_toString (hostname cfg) sitemap ;;
  Ok (set (ToString (output cfg)) (artifact xml) files).

End Transform.

End Plugin.


(** ** A sample runtime

    One concrete [Runtime], used to run the plugin on concrete inputs.  It
    covers what the examples below need: paths without device prefixes,
    globs made of literal characters, [*] and [**], decimal numerals, dates
    given as a number of milliseconds or as [YYYY-MM-DD], a serializer that
    writes one [url] element per entry, and a file system holding one JSON
    file.  The theorems do not depend on it: they hold for every
    [Runtime]. *)

Module Sample.

Definition backslash : ascii := ascii_of_nat 92.

(** Every backslash becomes a slash. *)
Fixpoint slash (s : string) : string :=
  match s with
  | EmptyString => EmptyString
  | String c rest =>
      String (if Ascii.eqb c backslash then "/"%char else c) (slash rest)
  end.

(** The pieces of a path between slashes. *)
Fixpoint split_slash (s : string) (piece : string) : list string :=
  match s with
  | EmptyString => [piece]
  | String c rest =>
      if Ascii.eqb c "/"%char then piece :: split_slash rest EmptyString
      else split_slash rest (piece ++ String c EmptyString)
  end.

(** One glob segment against one path segment: [*] stands for any run of
    characters. *)
Fixpoint wild (glob : string) : string -> bool :=
  match glob with
  | EmptyString => Str.isEmpty
  | String g glob' =>
      if Ascii.eqb g "*"%char then
        fix star (f : string) : bool :=
          wild glob' f
          || match f with
             | EmptyString => false
             | String _ f' => star f'
             end
      else
        fun f =>
          match f with
          | EmptyString => false
          | String c f' => Ascii.eqb g c && wild glob' f'
          end
  end.

Definition hidden (segment : string) : bool :=
  Str.startsWithChar "."%char segment.

(** A segment starting with a dot is matched only by a glob segment that
    starts with a dot. *)
Definition segment_match (glob f : string) : bool :=
  (negb (hidden f) || hidden glob) && wild glob f.

(** Glob segments against path segments: [**] swallows any number of
    segments that do not start with a dot, and needs a segment to stand
    on. *)
Fixpoint segments_match (globs : list string) : list string -> bool :=
  match globs with
  | [] => fun fs => match fs with [] => true | _ :: _ => false end
  | g :: globs' =>
      if String.eqb g "**" then
        fun fs =>
          match fs with
          | [] => false
          | _ :: _ =>
              (fix swallow (fs : list string) : bool :=
                 match globs', fs with
                 | [], [] => true
                 | _, [] => false
                 | _, f :: fs' =>
                     match globs' with
                     | [] => negb (hidden f) && swallow fs'
                     | _ :: _ =>
                         segments_match globs' fs
                         || (negb (hidden f) && swallow fs')
                     end
                 end) fs
          end
      else
        fun fs =>
          match fs with
          | [] => false
          | f :: fs' => segment_match g f && segments_match globs' fs'
          end
  end.

Definition minimatch (file glob : string) : bool :=
  if Str.isEmpty glob then Str.isEmpty file
  else segments_match (split_slash glob EmptyString)
                      (split_slash file EmptyString).

(** The digits after the decimal point, as long division gives them. *)
Fixpoint fraction (fuel : nat) (rest den : Z) : string :=
  match fuel with
  | O => ""
  | S fuel' =>
      if (rest =? 0)%Z then ""
      else NilZero.string_of_int (Z.to_int (10 * rest / den))
           ++ fraction fuel' ((10 * rest) mod den)%Z den
  end.

(** Numerals: integers in decimal, other numbers with up to 17 decimals. *)
Definition NumberToString (n : number) : string :=
  match n with
  | NaN => "NaN"
  | Infinity false => "Infinity"
  | Infinity true => "-Infinity"
  | Fin q =>
      let den := Z.pos (Qden q) in
      let a := Z.abs (Qnum q) in
      (if (Qnum q <? 0)%Z then "-" else "")
      ++ NilZero.string_of_int (Z.to_int (a / den))
      ++ (if (a mod den =? 0)%Z then ""
          else "." ++ fraction 17 (a mod den)%Z den)
  end.

Definition StringToNumber (s : string) : number :=
  if Str.isEmpty s then Fin 0
  else match NilZero.uint_of_string s with
       | Some u => Fin (inject_Z (Z.of_uint u))
       | None => NaN
       end.

(** Calendar arithmetic on days since 1970-01-01. *)
Definition days_from_civil (y m d : Z) : Z :=
  let y' := if (m <=? 2)%Z then (y - 1)%Z else y in
  let era := (y' / 400)%Z in
  let yoe := (y' - era * 400)%Z in
  let mp := if (m >? 2)%Z then (m - 3)%Z else (m + 9)%Z in
  let doy := ((153 * mp + 2) / 5 + d - 1)%Z in
  let doe := (yoe * 365 + yoe / 4 - yoe / 100 + doy)%Z in
  (era * 146097 + doe - 719468)%Z.

Definition civil_from_days (days : Z) : Z * Z * Z :=
  let z := (days + 719468)%Z in
  let era := (z / 146097)%Z in
  let doe := (z - era * 146097)%Z in
  let yoe := ((doe - doe / 1460 + doe / 36524 - doe / 146096) / 365)%Z in
  let doy := (doe - (365 * yoe + yoe / 4 - yoe / 100))%Z in
  let mp := ((5 * doy + 2) / 153)%Z in
  let d := (doy - (153 * mp + 2) / 5 + 1)%Z in
  let m := if (mp <? 10)%Z then (mp + 3)%Z else (mp - 9)%Z in
  let y := (yoe + era * 400)%Z in
  (if (m <=? 2)%Z then (y + 1)%Z else y, m, d).

Definition digits (width : nat) (z : Z) : string :=
  let s := NilZero.string_of_int (Z.to_int z) in
  (fix pad (k : nat) : string :=
     match k with
     | O => s
     | S k' => "0" ++ pad k'
     end) (width - String.length s).

Definition utcString (t : Z) : string :=
  let days := (t / 86400000)%Z in
  let ms := (t mod 86400000)%Z in
  let '(y, m, d) := civil_from_days days in
  nth (Z.to_nat ((days + 4) mod 7))
      ["Sun"; "Mon"; "Tue"; "Wed"; "Thu"; "Fri"; "Sat"] ""
  ++ ", " ++ digits 2 d ++ " "
  ++ nth (Z.to_nat (m - 1))
       ["Jan"; "Feb"; "Mar"; "Apr"; "May"; "Jun";
        "Jul"; "Aug"; "Sep"; "Oct"; "Nov"; "Dec"] ""
  ++ " " ++ digits 4 y ++ " "
  ++ digits 2 (ms / 3600000) ++ ":"
  ++ digits 2 (ms / 60000 mod 60) ++ ":"
  ++ digits 2 (ms / 1000 mod 60) ++ " GMT".

Definition numeral (s : string) : option Z :=
  option_map Z.of_uint (NilZero.uint_of_string s).

(** [YYYY-MM-DD], a day of the calendar. *)
Definition parse_date (s : string) : option Z :=
  if (String.length s =? 10)%nat
     && String.eqb (substring 4 1 s) "-" && String.eqb (substring 7 1 s) "-"
  then
    match numeral (substring 0 4 s), numeral (substring 5 2 s),
          numeral (substring 8 2 s) with
    | Some y, Some m, Some d =>
        let days := days_from_civil y m d in
        let '(y', m', d') := civil_from_days days in
        if (y =? y')%Z && (m =? m')%Z && (d =? d')%Z
        then Some (days * 86400000)%Z else None
    | _, _, _ => None
    end
  else None.

Definition Date_new (v : value) : option Z :=
  match v with
  | VNull => Some 0%Z
  | VBool b => Some (if b then 1 else 0)%Z
  | VNumber (Fin q) =>
      let ms := Z.quot (Qnum q) (Z.pos (Qden q)) in
      if (Z.abs ms <=? 8640000000000000)%Z then Some ms else None
  | VString s => parse_date s
  | VDate t => t
  | _ => None
  end.

Definition DateToString (t : option Z) : string :=
  match t with
  | Some ms => utcString ms
  | None => "Invalid Date"
  end.

(** One [url] element per entry, in the order the entries were added. *)
Definition element (name : string) (entry : object) : string :=
  match lookup name entry with
  | Some (VString s) => "<" ++ name ++ ">" ++ s ++ "</" ++ name ++ ">"
  | Some (VNumber n) =>
      "<" ++ name ++ ">" ++ NumberToString n ++ "</" ++ name ++ ">"
  | _ => ""
  end.

Definition url_element (entry : object) : string :=
  "<url><loc>" ++ match lookup "url" entry with
                  | Some (VString s) => s
                  | _ => ""
                  end ++ "</loc>"
  ++ element "changefreq" entry ++ element "priority" entry
  ++ element "lastmod" entry ++ "</url>".

Definition sitemap_toString (host : value) (urls : list object)
  : result string :=
  Ok ("<urlset xmlns='http://www.sitemaps.org/schemas/sitemap/0.9'>"
      ++ String.concat "" (map url_element urls) ++ "</urlset>").

(** The file system: [urls.json] holds [[{"path": "external/page"}]]. *)
Definition readJSON (file : value) : result value :=
  match file with
  | VString "urls.json" =>
      Ok (VArray [VObject [("path", VString "external/page")]])
  | VString _ => Throw (ErrExternal "ENOENT")
  | _ => Throw TypeError
  end.

End Sample.

Definition sample : Runtime := {|
  slash := Sample.slash;
  minimatch := Sample.minimatch;
  NumberToString := Sample.NumberToString;
  StringToNumber := Sample.StringToNumber;
  DateToString := Sample.DateToString;
  Date_new := Sample.Date_new;
  utcString := Sample.utcString;
  sitemap_toString := Sample.sitemap_toString;
  readJSON := Sample.readJSON
|}.


(** ** Definitions used in the statements *)

Section Specification.

Context {rt : Runtime}.

(** Rules 2 to 4 of the URL builder: the path-derived base. *)
Definition path_rules (cfg : config) (file : string) : string :=
  let normalizedFile := slash file in
  if truthy (omitIndex cfg)
     && String.eqb (path.basename normalizedFile) "index.html"
  then chompRight normalizedFile "index.html"
  else if truthy (omitExtension cfg)
  then chompRight normalizedFile (path.extname normalizedFile)
  else normalizedFile.

(** The four rules as the specification words them: any string [canonical]
    is the base. *)
Definition claimed_base (cfg : config) (file : string) (props : object)
  : string :=
  match prop props "canonical" with
  | VString c => c
  | _ => path_rules cfg file
  end.

(** The four rules with rule 1 for a non-empty string only. *)
Definition amended_base (cfg : config) (file : string) (props : object)
  : string :=
  match prop props "canonical" with
  | VString (String a c) => String a c
  | _ => path_rules cfg file
  end.

(** The site's root index page under [omitIndex], with no canonical URL to
    override it. *)
Definition bare_index (cfg : config) (file : string) (props : object)
  : bool :=
  truthy (omitIndex cfg) && String.eqb (slash file) "index.html"
  && match prop props "canonical" with
     | VString (String _ _) => false
     | _ => true
     end.

(** The globs of a [pattern] option that is a string or a list of
    strings. *)
Fixpoint strings_of (vs : list value) : option (list string) :=
  match vs with
  | [] => Some []
  | VString s :: rest => option_map (cons s) (strings_of rest)
  | _ :: _ => None
  end.

Definition patterns_of (v : value) : option (list string) :=
  strings_of (arrify v).

(** Shell-style selection by a list of globs, read from left to right: a
    glob adds the path when it matches it, a glob behind [!] removes it. *)
Fixpoint selected_from (file : string) (globs : list string) (acc : bool)
  : bool :=
  match globs with
  | [] => acc
  | g :: rest =>
      selected_from file rest
        (if Str.startsWithChar "!"%char g
         then acc && negb (minimatch file (Str.tail g))
         else acc || minimatch file g)
  end.

Definition selected (file : string) (globs : list string) : bool :=
  selected_from file globs false.

(** Lines 54-62 on an options object. *)
Definition resolve (o : object) : config :=
  {| changefreq := js_or (prop o "changefreq") (VString "weekly");
     hostname := prop o "hostname";
     lastmod := prop o "lastmod";
     omitExtension := prop o "omitExtension";
     omitIndex := prop o "omitIndex";
     output := js_or (prop o "output") (VString "sitemap.xml");
     pattern := js_or (prop o "pattern") (VString "**/*.html");
     priority :=
       if isNaN (prop o "priority") then VNumber (Fin (1 # 2))
       else prop o "priority";
     staticURLs := js_or (prop o "jsonFile") (VBool false) |}.

(** The three metadata fields before [pickby] (lines 136-138). *)
Definition resolved (cfg : config) (props : object) : object :=
  [ ("changefreq", js_or (prop props "changefreq") (changefreq cfg));
    ("priority", js_or (prop props "priority") (priority cfg));
    ("lastmod", js_or (prop props "lastmod") (lastmod cfg)) ].

Definition defined (item : value) : bool := negb (isundefined item).

(** [lastmod] is dropped when the record's value is falsy and the options
    gave none. *)
Definition lastmod_omitted (cfg : config) (props : object) : bool :=
  negb (truthy (prop props "lastmod")) && isundefined (lastmod cfg).

Definition entry_keys (cfg : config) (props : object) : list string :=
  if lastmod_omitted cfg props
  then ["changefreq"; "priority"; "url"]
  else ["changefreq"; "priority"; "lastmod"; "url"].

(** What [multimatch] holds for one path: nothing, or the path. *)
Definition hits (file : string) (b : bool) : list string :=
  if b then [file] else [].

(** While scanning, a dot that was recorded lies at or after the current
    position, and [preDotState] leaves [0] only once a character before
    that dot has been seen. *)
Definition ext_inv (k : nat) (st : path.extState) : Prop :=
  (forall d, path.startDot st = Some d -> k <= d)
  /\ (path.preDotState st <> 0%Z ->
      exists d, path.startDot st = Some d /\ 1 <= d).

(** An entry whose [url] is a string ending with a slash. *)
Definition slashed (entry : object) : Prop :=
  exists url,
    lookup "url" entry = Some (VString url) /\ Str.endsWith url "/" = true.

(** [null] and [undefined], the values a property cannot be read from. *)
Definition nullish (v : value) : bool :=
  match v with VUndefined | VNull => true | _ => false end.

(** The metadata is a record whose [private] is truthy. *)
Definition is_private (v : value) : bool :=
  match v with
  | VObject props => truthy (prop props "private")
  | _ => false
  end.

(** The two exclusion rules of the inclusion filter: the globs do not
    select the path, or the metadata is private. *)
Definition excluded (globs : list string) (files : object) (file : string)
  : bool :=
  negb (selected file globs) || is_private (prop files file).

(** The url of a static record as the specification words it: the
    concatenation whenever the record has a [path]. *)
Definition claimed_static_url (cfg : config) (props : object) : string :=
  if has_key "path" props
  then (ToString (hostname cfg) ++ "/") ++ ToString (prop props "path")
  else "".

(** The [lastmod] of an entry whose record gives [l]: the record's value
    when it is truthy, else the configured one, is rendered; an
    [undefined] result leaves the entry without [lastmod]. *)
Definition resolved_lastmod (cfg : config) (l : value) : option value :=
  let raw := js_or l (lastmod cfg) in
  if isundefined raw then None else Some (VString (toUTCString raw)).

(** The same as the specification words it: a value that is present, in
    the record or else in the options, is the one that is rendered. *)
Definition claimed_lastmod (cfg : config) (l : value) : option value :=
  if defined l then Some (VString (toUTCString l))
  else if defined (lastmod cfg)
  then Some (VString (toUTCString (lastmod cfg)))
  else None.

End Specification.

(** The files of a build that [check] lets through, given the globs of
    the pattern option. *)
Definition included {rt : Runtime} (globs : list string) (files : object)
           (file : string) : bool :=
  selected file globs && negb (Str.isEmpty file)
  && negb (is_private (prop files file)).

(** ** Definitions used in the further properties *)

(** Every character of a string passes a test. *)
Fixpoint every (test : ascii -> bool) (s : string) : bool :=
  match s with
  | EmptyString => true
  | String c rest => test c && every test rest
  end.

(** A character of a file name: no separator. *)
Definition inName (c : ascii) : bool := negb (path.isSlash c).

(** A character of an extension: no separator and no dot. *)
Definition inExtension (c : ascii) : bool :=
  negb (path.isSlash c) && negb (path.isDot c).

(** ** Inputs used in the examples *)

(** What [plugin("http://example.com")] resolves to. *)
Definition example_config : config :=
  {| changefreq := VString "weekly";
     hostname := VString "http://example.com";
     lastmod := VUndefined;
     omitExtension := VUndefined;
     omitIndex := VUndefined;
     output := VString "sitemap.xml";
     pattern := VString "**/*.html";
     priority := VNumber (Fin (1 # 2));
     staticURLs := VBool false |}.

(** The same with [omitIndex: true]. *)
Definition omitIndex_config : config :=
  {| changefreq := VString "weekly";
     hostname := VString "http://example.com";
     lastmod := VUndefined;
     omitExtension := VUndefined;
     omitIndex := VBool true;
     output := VString "sitemap.xml";
     pattern := VString "**/*.html";
     priority := VNumber (Fin (1 # 2));
     staticURLs := VBool false |}.

(** With [pattern: ["**/*.html", "!drafts/**"]]. *)
Definition drafts_config : config :=
  {| changefreq := VString "weekly";
     hostname := VString "http://example.com";
     lastmod := VUndefined;
     omitExtension := VUndefined;
     omitIndex := VUndefined;
     output := VString "sitemap.xml";
     pattern := VArray [VString "**/*.html"; VString "!drafts/**"];
     priority := VNumber (Fin (1 # 2));
     staticURLs := VBool false |}.

(** With [jsonFile: "urls.json"]. *)
Definition static_config : config :=
  {| changefreq := VString "weekly";
     hostname := VString "http://example.com";
     lastmod := VUndefined;
     omitExtension := VUndefined;
     omitIndex := VUndefined;
     output := VString "sitemap.xml";
     pattern := VString "**/*.html";
     priority := VNumber (Fin (1 # 2));
     staticURLs := VString "urls.json" |}.

(** A build with two pages and a stylesheet. *)
Definition example_files : object :=
  [ ("index.html", VObject [("contents", VBuffer "<h1>Home</h1>")]);
    ("blog/post.html", VObject [("contents", VBuffer "<h1>Post</h1>");
                                ("lastmod", VString "2020-02-29")]);
    ("style.css", VObject [("contents", VBuffer "h1 {}")]) ].

(** A build whose source directory already holds a [sitemap.xml]. *)
Definition stale_files : object :=
  [ ("index.html", VObject [("contents", VBuffer "<h1>Home</h1>")]);
    ("sitemap.xml", VObject [("contents", VBuffer "<urlset/>")]) ].

(** Options with a JSON file whose extension is in upper case. *)
Definition upper_case_options : object :=
  [ ("hostname", VString "http://example.com");
    ("jsonFile", VString "urls.JSON") ].

(** With [pattern: ["!drafts/**"]]: negations only. *)
Definition negated_config : config :=
  {| changefreq := VString "weekly";
     hostname := VString "http://example.com";
     lastmod := VUndefined;
     omitExtension := VUndefined;
     omitIndex := VUndefined;
     output := VString "sitemap.xml";
     pattern := VArray [VString "!drafts/**"];
     priority := VNumber (Fin (1 # 2));
     staticURLs := VBool false |}.

(** Options with a default priority of zero. *)
Definition zero_priority_options : object :=
  [ ("hostname", VString "http://example.com");
    ("priority", VNumber (Fin 0)) ].

(** A record that gives all three metadata fields. *)
Definition full_record : object :=
  [ ("changefreq", VString "daily");
    ("priority", VNumber (Fin (9 # 10)));
    ("lastmod", VString "2020-02-29") ].

(** A build with a page whose metadata is [null]. *)
Definition broken_files : object :=
  [ ("index.html", VObject [("contents", VBuffer "<h1>Home</h1>")]);
    ("blog/post.html", VNull) ].

(** A build with a private page and a draft. *)
Definition mixed_files : object :=
  [ ("index.html", VObject []);
    ("secret.html", VObject [("private", VBool true)]);
    ("drafts/a.html", VObject []);
    ("blog/post.html", VObject [("priority", VNumber (Fin (9 # 10)))]);
    ("style.css", VObject []) ].

(** With [jsonFile: "missing.json"], a file the sample file system lacks. *)
Definition missing_config : config :=
  {| changefreq := VString "weekly";
     hostname := VString "http://example.com";
     lastmod := VUndefined;
     omitExtension := VUndefined;
     omitIndex := VUndefined;
     output := VString "sitemap.xml";
     pattern := VString "**/*.html";
     priority := VNumber (Fin (1 # 2));
     staticURLs := VString "missing.json" |}.

(** The sample runtime over a file system whose JSON files all hold
    [[{"path": "a", "private": true}, null]]. *)
Definition null_record_runtime : Runtime := {|
  slash := Sample.slash;
  minimatch := Sample.minimatch;
  NumberToString := Sample.NumberToString;
  StringToNumber := Sample.StringToNumber;
  DateToString := Sample.DateToString;
  Date_new := Sample.Date_new;
  utcString := Sample.utcString;
  sitemap_toString := Sample.sitemap_toString;
  readJSON := fun _ =>
    Ok (VArray [ VObject [("path", VString "a"); ("private", VBool true)];
                 VNull ])
|}.

(** The same with [[{"path": "a", "private": true}, "b"]]. *)
Definition private_record_runtime : Runtime := {|
  slash := Sample.slash;
  minimatch := Sample.minimatch;
  NumberToString := Sample.NumberToString;
  StringToNumber := Sample.StringToNumber;
  DateToString := Sample.DateToString;
  Date_new := Sample.Date_new;
  utcString := Sample.utcString;
  sitemap_toString := Sample.sitemap_toString;
  readJSON := fun _ =>
    Ok (VArray [ VObject [("path", VString "a"); ("private", VBool true)];
                 VString "b" ])
|}.

(** With [omitExtension: true]. *)
Definition omitExtension_config : config :=
  {| changefreq := VString "weekly";
     hostname := VString "http://example.com";
     lastmod := VUndefined;
     omitExtension := VBool true;
     omitIndex := VUndefined;
     output := VString "sitemap.xml";
     pattern := VString "**/*.html";
     priority := VNumber (Fin (1 # 2));
     staticURLs := VBool false |}.

(** With [lastmod: "2021-03-01"] and [jsonFile: "urls.json"]. *)
Definition lastmod_config : config :=
  {| changefreq := VString "weekly";
     hostname := VString "http://example.com";
     lastmod := VString "2021-03-01";
     omitExtension := VUndefined;
     omitIndex := VUndefined;
     output := VString "sitemap.xml";
     pattern := VString "**/*.html";
     priority := VNumber (Fin (1 # 2));
     staticURLs := VString "urls.json" |}.

(** A build with one page, last modified at the epoch (in
    milliseconds). *)
Definition epoch_files : object :=
  [ ("index.html", VObject [("lastmod", VNumber (Fin 0))]) ].

(** The sample runtime over a file system whose JSON files all hold
    [[{"path": "a"}, {"path": ""}]]. *)
Definition empty_path_runtime : Runtime := {|
  slash := Sample.slash;
  minimatch := Sample.minimatch;
  NumberToString := Sample.NumberToString;
  StringToNumber := Sample.StringToNumber;
  DateToString := Sample.DateToString;
  Date_new := Sample.Date_new;
  utcString := Sample.utcString;
  sitemap_toString := Sample.sitemap_toString;
  readJSON := fun _ =>
    Ok (VArray [ VObject [("path", VString "a")];
                 VObject [("path", VString EmptyString)] ])
|}.

(** * Properties *)

(** ** Strings *)

Lemma length_append (a b : string) :
  String.length (a ++ b) = String.length a + String.length b.
Proof.
  induction a as [|c a IH]; simpl; [reflexivity | now rewrite IH].
Qed.

Lemma substring_all (s : string) : substring 0 (String.length s) s = s.
Proof.
  induction s as [|c s IH]; simpl; [reflexivity | now rewrite IH].
Qed.

Lemma substring_zero (n : nat) (s : string) : substring n 0 s = "".
Proof.
  revert s; induction n as [|n IH]; intros [|c s]; simpl; auto.
Qed.

Lemma substring_skip (a b : string) (m : nat) :
  substring (String.length a) m (a ++ b) = substring 0 m b.
Proof.
  induction a as [|c a IH]; simpl; [reflexivity | exact IH].
Qed.

Lemma substring_prefix (a b : string) :
  substring 0 (String.length a) (a ++ b) = a.
Proof.
  induction a as [|c a IH]; simpl.
  - apply substring_zero.
  - now rewrite IH.
Qed.

Lemma substring_length_le (s : string) (n m : nat) :
  String.length (substring n m s) <= String.length s - n.
Proof.
  revert n m; induction s as [|c s IH]; intros [|n] [|m]; simpl; try lia.
  - specialize (IH 0 m). lia.
  - apply IH.
  - apply IH.
Qed.

Lemma isEmpty_true (s : string) : Str.isEmpty s = true <-> s = "".
Proof. destruct s; simpl; split; congruence. Qed.

Lemma length_zero (s : string) : String.length s = 0 -> s = "".
Proof. destruct s; simpl; [reflexivity | discriminate]. Qed.

(** [endsWith] is the suffix relation. *)
Lemma endsWith_iff (input suffix : string) :
  Str.endsWith input suffix = true <-> exists p, input = p ++ suffix.
Proof.
  unfold Str.endsWith. rewrite andb_true_iff, Nat.leb_le, String.eqb_eq.
  split.
  - intros [Hlen Hsub].
    exists (substring 0 (String.length input - String.length suffix) input).
    rewrite <- Hsub at 2.
    clear Hsub. revert suffix Hlen.
    induction input as [|c input IH]; intros suffix Hlen.
    + simpl in *. destruct suffix; [reflexivity | simpl in Hlen; lia].
    + destruct (Nat.eq_dec (String.length suffix) (S (String.length input)))
        as [E | E].
      * rewrite E, Nat.sub_diag. simpl. now rewrite substring_all.
      * assert (Hle : String.length suffix <= String.length input)
          by (simpl in Hlen; lia).
        change (String.length (String c input))
          with (S (String.length input)).
        rewrite Nat.sub_succ_l by exact Hle.
        simpl. f_equal. now apply IH.
  - intros [p ->]. rewrite length_append. split; [lia |].
    replace (String.length p + String.length suffix - String.length suffix)
      with (String.length p) by lia.
    rewrite substring_skip. apply substring_all.
Qed.

Lemma endsWith_append (p suffix : string) :
  Str.endsWith (p ++ suffix) suffix = true.
Proof. apply endsWith_iff. now exists p. Qed.

(** [chompRight] removes the suffix and nothing else. *)
Lemma chompRight_append (p suffix : string) :
  chompRight (p ++ suffix) suffix = p.
Proof.
  unfold chompRight, Str.slice. rewrite endsWith_append, length_append.
  replace (String.length p + String.length suffix - String.length suffix - 0)
    with (String.length p) by lia.
  apply substring_prefix.
Qed.

Lemma chompRight_other (input suffix : string) :
  Str.endsWith input suffix = false -> chompRight input suffix = input.
Proof. unfold chompRight. now intros ->. Qed.

(** The result is empty only for the empty string and for the suffix
    itself. *)
Lemma chompRight_empty (input suffix : string) :
  chompRight input suffix = "" -> input = "" \/ input = suffix.
Proof.
  destruct (Str.endsWith input suffix) eqn:E.
  - apply endsWith_iff in E. destruct E as [p ->].
    rewrite chompRight_append. intros ->. now right.
  - rewrite chompRight_other by exact E. now left.
Qed.

(** ** [path.extname] never returns the whole of a non-empty path *)

Lemma ext_inv_scan (p : string) (k : nat) (st : path.extState) :
  ext_inv k st -> ext_inv 0 (path.extname_scan p k st).
Proof.
  revert st. induction k as [|i IH]; intros st [Hpos Hpre]; simpl.
  - now split.
  - destruct (String.get i p) as [c|]; [| split; [intros; lia | exact Hpre]].
    destruct (path.isSlash c).
    + destruct (negb (path.matchedSlash st)).
      * split; simpl; [intros; lia | exact Hpre].
      * apply IH. split; [| exact Hpre].
        intros d Hd. specialize (Hpos d Hd). lia.
    + apply IH.
      destruct st as [sd sp en ms pd]; simpl in *.
      destruct (path.isDot c), en, sd as [d0|]; simpl;
        try (destruct (negb (pd =? 1)%Z); simpl);
        (split;
         [ intros d Hd; inversion Hd; subst;
           try (specialize (Hpos _ eq_refl)); lia
         | intros Hne;
           try (destruct (Hpre Hne) as [d [Hd Hd1]]; discriminate);
           try (exists d0; split; [reflexivity |];
                specialize (Hpos _ eq_refl); lia);
           try (destruct (Hpre Hne) as [d [Hd Hd1]]; exists d; now split) ]).
Qed.

Lemma extname_proper (p : string) : path.extname p = p -> p = "".
Proof.
  unfold path.extname.
  pose proof (@ext_inv_scan p (String.length p) path.extname_init) as H.
  destruct H as [_ Hpre];
    [split; simpl; [discriminate | congruence] |].
  destruct (path.startDot _) as [d|]; [| now intros <-].
  destruct (path.end_ _) as [e|]; [| now intros <-].
  destruct (path.preDotState _ =? 0)%Z eqn:E0; simpl; [now intros <- |].
  destruct (_ && _ && _); [now intros <- |].
  apply Z.eqb_neq in E0. destruct (Hpre E0) as [d' [Hd' Hd1]].
  inversion Hd'; subst d'.
  intros Heq. apply length_zero.
  pose proof (substring_length_le p d (e - d)) as Hle.
  unfold Str.slice in Heq. rewrite Heq in Hle. lia.
Qed.

Example basename_examples :
  path.basename "blog/index.html" = "index.html"
  /\ path.basename "index.html" = "index.html"
  /\ path.basename "a/index.html/" = "index.html"
  /\ path.basename "/" = ""
  /\ path.basename "" = "".
Proof. repeat split; reflexivity. Qed.

Example extname_examples :
  path.extname "blog/post.html" = ".html"
  /\ path.extname "urls.json" = ".json"
  /\ path.extname "urls.JSON" = ".JSON"
  /\ path.extname "a.b/c" = ""
  /\ path.extname ".json" = ""
  /\ path.extname ".." = ""
  /\ path.extname "a." = "."
  /\ path.extname "x/..a" = ".a"
  /\ path.extname "post.html/" = ".html".
Proof. repeat split; reflexivity. Qed.

(** ** Objects *)

Lemma lookup_set_same (k : string) (v : value) (o : object) :
  lookup k (set k v o) = Some v.
Proof.
  induction o as [|[k' v'] o IH]; simpl.
  - now rewrite String.eqb_refl.
  - destruct (String.eqb k k') eqn:E; simpl; rewrite E; [reflexivity | exact IH].
Qed.

Lemma lookup_set_other (k k' : string) (v : value) (o : object) :
  k' <> k -> lookup k' (set k v o) = lookup k' o.
Proof.
  intros Hne. apply String.eqb_neq in Hne.
  induction o as [|[k0 v0] o IH]; simpl.
  - now rewrite Hne.
  - destruct (String.eqb k k0) eqn:E; simpl.
    + apply String.eqb_eq in E. subst k0. now rewrite Hne.
    + now rewrite IH.
Qed.

Lemma keys_set (k : string) (v : value) (o : object) :
  keys (set k v o) = if has_key k o then keys o else (keys o ++ [k])%list.
Proof.
  unfold has_key, keys. induction o as [|[k' v'] o IH]; simpl; [reflexivity |].
  destruct (String.eqb k k') eqn:E; simpl; [reflexivity |].
  rewrite IH. now destruct (lookup k o).
Qed.

Lemma has_key_set_other (k k' : string) (v : value) (o : object) :
  k' <> k -> has_key k' (set k v o) = has_key k' o.
Proof. intros H. unfold has_key. now rewrite (lookup_set_other v o H). Qed.

Lemma truthy_not_undefined (v : value) :
  truthy v = true -> isundefined v = false.
Proof. now destruct v. Qed.

(** [a || b] is [undefined] exactly when [a] is falsy and [b] is
    [undefined]. *)
Lemma isundefined_or (a b : value) :
  isundefined (js_or a b) = negb (truthy a) && isundefined b.
Proof.
  unfold js_or. destruct (truthy a) eqn:E; simpl; [| reflexivity].
  now apply truthy_not_undefined.
Qed.

(** ** The URL builder *)

Section UrlBuilder.

Context {rt : Runtime}.
Variable cfg : config.

(** On a metadata record [buildUrl] does not throw. *)
Lemma buildUrl_base_total (file : string) (props : object) :
  exists base, buildUrl_base cfg file (VObject props) = Ok base.
Proof. unfold buildUrl_base. simpl. eauto. Qed.

Lemma buildUrl_of_base (file : string) (props : object) (base : string) :
  buildUrl_base cfg file (VObject props) = Ok base ->
  buildUrl cfg file (VObject props)
  = Ok (if Str.endsWith base "/" then base else base ++ "/").
Proof.
  unfold buildUrl. intros ->. simpl. now destruct (Str.endsWith base "/").
Qed.

Lemma slash_appended (base : string) :
  Str.endsWith (if Str.endsWith base "/" then base else base ++ "/") "/"
  = true.
Proof.
  destruct (Str.endsWith base "/") eqn:E; [exact E | apply endsWith_append].
Qed.

(** The base is [canonical] when that is a non-empty string. *)
Lemma base_canonical (file : string) (props : object) (a : ascii) (c : string) :
  prop props "canonical" = VString (String a c) ->
  buildUrl_base cfg file (VObject props) = Ok (String a c).
Proof. unfold buildUrl_base. simpl. now intros ->. Qed.

(** Without one, it is the first non-empty result of the path rules. *)
Lemma base_path (file : string) (props : object) :
  match prop props "canonical" with
  | VString (String _ _) => False
  | _ => True
  end ->
  buildUrl_base cfg file (VObject props)
  = Ok (let n := slash file in
        let r2 := if truthy (omitIndex cfg)
                     && String.eqb (path.basename n) "index.html"
                  then chompRight n "index.html" else "" in
        let r3 := if Str.isEmpty r2 && truthy (omitExtension cfg)
                  then chompRight n (path.extname n) else r2 in
        if Str.isEmpty r3 then n else r3).
Proof.
  unfold buildUrl_base. simpl.
  destruct (prop props "canonical") as [| | | |[|a c]| | | |];
    simpl; intros H; try reflexivity; contradiction.
Qed.

End UrlBuilder.

(** ** Entries *)

Section Entries.

Context {rt : Runtime}.
Variable cfg : config.

Lemma metaEntry_object (props : object) :
  metaEntry cfg (VObject props)
  = Ok (let entry := pickby (resolved cfg props) defined in
        if has_key "lastmod" entry
        then set "lastmod" (VString (toUTCString (prop entry "lastmod"))) entry
        else entry).
Proof. reflexivity. Qed.

Lemma fileEntry_object (file : string) (props : object) :
  exists meta url,
    metaEntry cfg (VObject props) = Ok meta
    /\ buildUrl cfg file (VObject props) = Ok url
    /\ fileEntry cfg file (VObject props) = Ok (set "url" (VString url) meta).
Proof.
  destruct (buildUrl_base_total cfg file props) as [base Hbase].
  unfold fileEntry. rewrite metaEntry_object, (buildUrl_of_base Hbase).
  simpl. eauto.
Qed.

Lemma staticEntry_object (props : object) :
  exists meta,
    metaEntry cfg (VObject props) = Ok meta
    /\ staticEntry cfg (VObject props)
       = Ok (set "url" (VString (staticUrl cfg (prop props "path"))) meta).
Proof. unfold staticEntry. rewrite metaEntry_object. simpl. eauto. Qed.

End Entries.

(** ** The inclusion filter *)

Section Filter.

Context {rt : Runtime}.

Lemma strings_of_map (vs : list value) (globs : list string) :
  strings_of vs = Some globs -> vs = map VString globs.
Proof.
  revert globs. induction vs as [|v vs IH]; intros globs; simpl.
  - now intros [= <-].
  - destruct v; try discriminate.
    destruct (strings_of vs) as [gs|]; simpl; [| discriminate].
    intros [= <-]. simpl. f_equal. now apply IH.
Qed.

Lemma minimatch_match_one (file glob : string) :
  minimatch_match [file] glob = hits file (minimatch file glob).
Proof. unfold minimatch_match, hits. simpl. now destruct (minimatch file glob). Qed.

Lemma union_hits (file : string) (a b : bool) :
  union (hits file a) (hits file b) = hits file (a || b).
Proof.
  destruct a, b; unfold union, hits, mem; simpl;
    try rewrite String.eqb_refl; reflexivity.
Qed.

Lemma difference_hits (file : string) (a b : bool) :
  difference (hits file a) (hits file b) = hits file (a && negb b).
Proof.
  destruct a, b; unfold difference, hits, mem; simpl;
    try rewrite String.eqb_refl; reflexivity.
Qed.

(** [multimatch]'s reduction computes the left-to-right selection. *)
Lemma reduce_selected (file : string) (globs : list string) (acc : bool) :
  multimatch_reduce [file] (map VString globs) (hits file acc)
  = Ok (hits file (selected_from file globs acc)).
Proof.
  revert acc. induction globs as [|g globs IH]; intros acc.
  - reflexivity.
  - cbn [map multimatch_reduce selected_from]. unfold multimatch_step.
    destruct (Str.startsWithChar "!" g); cbn [bind];
      rewrite minimatch_match_one.
    + rewrite difference_hits. apply IH.
    + rewrite union_hits. apply IH.
Qed.

Lemma multimatch_selected (file : string) (v : value) (globs : list string) :
  patterns_of v = Some globs ->
  multimatch [file] v = Ok (hits file (selected file globs)).
Proof.
  unfold patterns_of, multimatch. intros H.
  apply strings_of_map in H. rewrite H.
  destruct globs as [|g globs]; [reflexivity |].
  apply (reduce_selected file (g :: globs) false).
Qed.

(** Adding one glob at the end of the list. *)
Lemma selected_from_app (file : string) (pre post : list string) (acc : bool) :
  selected_from file (pre ++ post)%list acc
  = selected_from file post (selected_from file pre acc).
Proof.
  revert acc. induction pre as [|g pre IH]; intros acc; simpl;
    [reflexivity | apply IH].
Qed.

Lemma selected_last (file : string) (pre : list string) (g : string) :
  selected file (pre ++ [g])%list
  = if Str.startsWithChar "!" g
    then selected file pre && negb (minimatch file (Str.tail g))
    else selected file pre || minimatch file g.
Proof. unfold selected. now rewrite selected_from_app. Qed.

Lemma check_object (cfg : config) (file : string) (props : object)
      (globs : list string) :
  patterns_of (pattern cfg) = Some globs ->
  check cfg file (VObject props)
  = Ok (selected file globs && negb (Str.isEmpty file)
        && negb (truthy (prop props "private"))).
Proof.
  intros H. unfold check. rewrite (multimatch_selected file _ H). simpl.
  destruct (selected file globs); simpl; [| reflexivity].
  destruct (Str.isEmpty file); simpl; [reflexivity |].
  now destruct (truthy (prop props "private")).
Qed.

End Filter.

(** [check] on any metadata value. *)
Lemma check_any {rt : Runtime} (cfg : config) (file : string)
      (frontmatter : value) (globs : list string) :
  patterns_of (pattern cfg) = Some globs ->
  check cfg file frontmatter
  = if selected file globs && negb (Str.isEmpty file)
    then match frontmatter with
         | VUndefined | VNull => Throw TypeError
         | VObject props => Ok (negb (truthy (prop props "private")))
         | _ => Ok true
         end
    else Ok false.
Proof.
  intros H. unfold check. rewrite (multimatch_selected file _ H). simpl.
  destruct (selected file globs); simpl; [| reflexivity].
  destruct (Str.isEmpty file); simpl; [reflexivity |].
  destruct frontmatter; simpl; try reflexivity.
  now destruct (truthy (prop props "private")).
Qed.

(** ** Metadata of an entry *)

Section Metadata.

Context {rt : Runtime}.
Variable cfg : config.

(** The keys [pickby] keeps, and the values under them. *)
Lemma pickby_resolved (props : object) :
  let entry := pickby (resolved cfg props) defined in
  lookup "changefreq" entry
  = (let v := js_or (prop props "changefreq") (changefreq cfg) in
     if defined v then Some v else None)
  /\ lookup "priority" entry
     = (let v := js_or (prop props "priority") (priority cfg) in
        if defined v then Some v else None)
  /\ lookup "lastmod" entry
     = (let v := js_or (prop props "lastmod") (lastmod cfg) in
        if defined v then Some v else None)
  /\ keys entry
     = ((if defined (js_or (prop props "changefreq") (changefreq cfg))
         then ["changefreq"] else [])
        ++ (if defined (js_or (prop props "priority") (priority cfg))
            then ["priority"] else [])
        ++ (if defined (js_or (prop props "lastmod") (lastmod cfg))
            then ["lastmod"] else []))%list.
Proof.
  unfold resolved, pickby. cbn [filter snd].
  destruct (defined (js_or (prop props "changefreq") (changefreq cfg))),
    (defined (js_or (prop props "priority") (priority cfg))),
    (defined (js_or (prop props "lastmod") (lastmod cfg)));
    repeat split; reflexivity.
Qed.

(** The entry before its url: [lastmod], when kept, is rendered. *)
Lemma metaEntry_fields (props : object) :
  exists meta,
    metaEntry cfg (VObject props) = Ok meta
    /\ lookup "changefreq" meta
       = (let v := js_or (prop props "changefreq") (changefreq cfg) in
          if defined v then Some v else None)
    /\ lookup "priority" meta
       = (let v := js_or (prop props "priority") (priority cfg) in
          if defined v then Some v else None)
    /\ lookup "lastmod" meta
       = (let v := js_or (prop props "lastmod") (lastmod cfg) in
          if defined v then Some (VString (toUTCString v)) else None)
    /\ keys meta = keys (pickby (resolved cfg props) defined).
Proof.
  rewrite metaEntry_object. eexists. split; [reflexivity |].
  destruct (pickby_resolved props) as (Hc & Hp & Hl & _).
  cbv zeta in *.
  set (entry := pickby (resolved cfg props) defined) in *.
  set (raw := js_or (prop props "lastmod") (lastmod cfg)) in *.
  assert (Hhas : has_key "lastmod" entry = defined raw)
    by (unfold has_key; rewrite Hl; now destruct (defined raw)).
  rewrite Hhas. destruct (defined raw) eqn:E.
  - assert (Hprop : prop entry "lastmod" = raw)
      by (unfold prop; now rewrite Hl).
    rewrite Hprop. repeat split.
    + rewrite lookup_set_other by discriminate. exact Hc.
    + rewrite lookup_set_other by discriminate. exact Hp.
    + apply lookup_set_same.
    + rewrite keys_set, Hhas. reflexivity.
  - repeat split; assumption.
Qed.

End Metadata.

(** ** The constructor *)

Section Constructor.

Context {rt : Runtime}.

Lemma defaults_object (o : object) : defaults (VObject o) = Ok (resolve o).
Proof. reflexivity. Qed.

Lemma plugin_object (o : object) :
  plugin (VObject o)
  = if truthy (prop o "hostname")
    then _ <- checkJsonFile (VObject o) ;; Ok (resolve o)
    else Throw ErrHostnameRequired.
Proof.
  unfold plugin, normalizeOptions. simpl.
  now destruct (truthy (prop o "hostname")).
Qed.

(** After normalization the options are never [null] or [undefined]. *)
Lemma normalizeOptions_truthy (opts : value) :
  truthy (normalizeOptions opts) = true.
Proof.
  unfold normalizeOptions, js_or.
  destruct (truthy opts) eqn:E; [| reflexivity].
  now destruct opts.
Qed.

Lemma get_truthy (v : value) (k : string) :
  truthy v = true -> exists x, get v k = Ok x.
Proof. destruct v; simpl; intros H; try discriminate; eauto. Qed.

(** The constructor succeeds on an options object only. *)
Lemma plugin_ok (opts : value) (cfg : config) :
  plugin opts = Ok cfg ->
  exists o,
    normalizeOptions opts = VObject o
    /\ truthy (prop o "hostname") = true
    /\ checkJsonFile (VObject o) = Ok tt
    /\ cfg = resolve o.
Proof.
  unfold plugin. cbv zeta.
  destruct (normalizeOptions opts) as [| | | | | | | |o]; simpl;
    try discriminate.
  intros H. exists o. split; [reflexivity |].
  destruct (truthy (prop o "hostname")); simpl in H; [| discriminate].
  split; [reflexivity |].
  destruct (checkJsonFile (VObject o)) as [[]|e]; simpl in H;
    [| discriminate].
  split; [reflexivity |]. now inversion H.
Qed.

(** The defaults make [changefreq] truthy and [priority] defined. *)
Lemma resolve_changefreq (o : object) : truthy (changefreq (resolve o)) = true.
Proof.
  simpl. unfold js_or. now destruct (truthy (prop o "changefreq")) eqn:E.
Qed.

Lemma resolve_priority (o : object) :
  isundefined (priority (resolve o)) = false.
Proof.
  simpl. destruct (isNaN (prop o "priority")) eqn:E; [reflexivity |].
  destruct (prop o "priority"); try reflexivity. discriminate E.
Qed.

(** The resolver replaces [priority] by [0.5] exactly when [isNaN] holds of
    it: a number that is not [NaN] is kept, [0] included. *)
Lemma resolve_priority_number (o : object) (n : number) :
  prop o "priority" = VNumber n ->
  priority (resolve o)
  = if number_is_nan n then VNumber (Fin (1 # 2)) else VNumber n.
Proof. simpl. intros ->. reflexivity. Qed.

End Constructor.

(** ** Which fields an entry has *)

Lemma has_key_In (k : string) (o : object) :
  has_key k o = true <-> In k (keys o).
Proof.
  unfold has_key, keys. induction o as [|[k' v] o IH]; simpl.
  - split; [discriminate | contradiction].
  - destruct (String.eqb k k') eqn:E.
    + apply String.eqb_eq in E. subst. split; auto.
    + apply String.eqb_neq in E. rewrite IH. split; [auto |].
      intros [H | H]; [congruence | exact H].
Qed.

Lemma meta_keys {rt : Runtime} (o props : object) :
  exists meta,
    metaEntry (resolve o) (VObject props) = Ok meta
    /\ keys meta
       = if lastmod_omitted (resolve o) props
         then ["changefreq"; "priority"]
         else ["changefreq"; "priority"; "lastmod"].
Proof.
  destruct (metaEntry_fields (resolve o) props) as (meta & Hm & _ & _ & _ & Hk).
  exists meta. split; [exact Hm |]. rewrite Hk.
  destruct (pickby_resolved (resolve o) props) as (_ & _ & _ & Hkeys).
  cbv zeta in Hkeys. rewrite Hkeys. unfold defined, lastmod_omitted.
  rewrite !isundefined_or.
  rewrite (truthy_not_undefined _ (resolve_changefreq o)), resolve_priority.
  rewrite !andb_false_r. simpl.
  now destruct (negb (truthy (prop props "lastmod")) && isundefined (prop o "lastmod")).
Qed.

Lemma keys_set_url (v : value) (meta : object) :
  ~ In "url" (keys meta) ->
  keys (set "url" v meta) = (keys meta ++ ["url"])%list.
Proof.
  intros H. rewrite keys_set.
  destruct (has_key "url" meta) eqn:E; [| reflexivity].
  apply has_key_In in E. contradiction.
Qed.

(** ** Failures of the constructor *)

Section Failures.

Context {rt : Runtime}.

Lemma get_throws (v : value) (k : string) (e : error) :
  get v k = Throw e -> e = TypeError.
Proof. destruct v; simpl; intros H; now inversion H. Qed.

Lemma defaults_throws (v : value) (e : error) :
  defaults v = Throw e -> e = TypeError.
Proof. destruct v; simpl; intros H; now inversion H. Qed.

Lemma checkJsonFile_object (o : object) :
  checkJsonFile (VObject o)
  = if truthy (prop o "jsonFile") then
      match prop o "jsonFile" with
      | VString f =>
          if String.eqb (path.extname f) ".json" then Ok tt
          else Throw ErrJsonFileExtension
      | _ => Throw TypeError
      end
    else Ok tt.
Proof.
  unfold checkJsonFile. simpl.
  destruct (truthy (prop o "jsonFile")); [| reflexivity].
  destruct (prop o "jsonFile"); try reflexivity.
  simpl. now destruct (String.eqb (path.extname s) ".json").
Qed.

Lemma checkJsonFile_throws (v : value) (e : error) :
  checkJsonFile v = Throw e -> e = TypeError \/ e = ErrJsonFileExtension.
Proof.
  destruct v; simpl; try (intros [= <-]; now left); try discriminate.
  rewrite checkJsonFile_object.
  destruct (truthy (prop props "jsonFile")); [| discriminate].
  destruct (prop props "jsonFile"); try (intros [= <-]; now left).
  destruct (String.eqb (path.extname s) ".json"); [discriminate |].
  intros [= <-]. now right.
Qed.

End Failures.

(** ** The transformation as a whole *)

Section Run.

Context {rt : Runtime}.
Variable cfg : config.

Lemma forEach_total {A S : Type} (f : S -> A -> result S) (xs : list A) :
  (forall s x, In x xs -> exists s', f s x = Ok s') ->
  forall s, exists s', forEach f xs s = Ok s'.
Proof.
  induction xs as [|x xs IH]; intros Hf s; simpl.
  - eauto.
  - destruct (Hf s x (or_introl eq_refl)) as [s1 ->]. simpl.
    apply IH. intros s0 y Hy. apply Hf. now right.
Qed.

Lemma prop_of_key (files : object) (k : string) :
  In k (keys files) -> exists v, prop files k = v /\ In (k, v) files.
Proof.
  unfold prop, keys. induction files as [|[k' v'] files IH]; simpl.
  - contradiction.
  - destruct (String.eqb k k') eqn:E.
    + apply String.eqb_eq in E. subst k'. intros _. exists v'. auto.
    + intros [H | H].
      * apply String.eqb_neq in E. congruence.
      * destruct (IH H) as (v & Hv & Hin). exists v. auto.
Qed.

(** Files whose values are metadata records, globs that are strings and no
    JSON file: every entry is collected, nothing throws. *)
Lemma collect_total (files : object) (globs : list string) :
  patterns_of (pattern cfg) = Some globs ->
  truthy (staticURLs cfg) = false ->
  (forall k v, In (k, v) files -> exists props, v = VObject props) ->
  exists sitemap, collect cfg files = Ok sitemap.
Proof.
  intros Hglobs Hstatic Hrecords. unfold collect, fileEntries, staticEntries.
  rewrite Hstatic.
  destruct (forEach_total (processFile cfg files) (keys files)) with (s := @nil object)
    as [sitemap ->].
  - intros s file Hin. destruct (prop_of_key files file Hin) as (v & Hv & Hv').
    destruct (Hrecords _ _ Hv') as [props ->].
    unfold processFile. rewrite Hv, (check_object cfg file props Hglobs).
    cbn [bind].
    destruct (negb _); [eauto |].
    destruct (fileEntry_object cfg file props) as (meta & url & _ & _ & ->).
    simpl. eauto.
  - simpl. eauto.
Qed.

(** A property that every step keeps holds when [forEach] returns. *)
Lemma forEach_invariant {A S : Type} (P : S -> Prop)
      (f : S -> A -> result S) (xs : list A) :
  (forall s x s', P s -> f s x = Ok s' -> P s') ->
  forall s s', P s -> forEach f xs s = Ok s' -> P s'.
Proof.
  intros Hstep. induction xs as [|x xs IH]; intros s s' Hs; simpl.
  - now intros [= <-].
  - destruct (f s x) as [s1|] eqn:E; simpl; [| discriminate].
    apply IH. exact (Hstep _ _ _ Hs E).
Qed.

(** Whatever the metadata is, a url that [buildUrl] returns ends with a
    slash. *)
Lemma buildUrl_slashed (file : string) (frontmatter : value) (url : string) :
  buildUrl cfg file frontmatter = Ok url -> Str.endsWith url "/" = true.
Proof.
  unfold buildUrl.
  destruct (buildUrl_base cfg file frontmatter) as [base|]; [| discriminate].
  simpl. intros [= <-].
  destruct (Str.endsWith base "/") eqn:E; simpl;
    [exact E | apply endsWith_append].
Qed.

Lemma fileEntry_slashed (file : string) (frontmatter : value) (entry : object) :
  fileEntry cfg file frontmatter = Ok entry -> slashed entry.
Proof.
  unfold fileEntry.
  destruct (metaEntry cfg frontmatter) as [meta|]; [| discriminate]. simpl.
  destruct (buildUrl cfg file frontmatter) as [url|] eqn:E; [| discriminate].
  simpl. intros [= <-]. exists url.
  split; [apply lookup_set_same | exact (buildUrl_slashed _ _ E)].
Qed.

Lemma fileEntries_slashed (files : object) (sitemap : list object) :
  fileEntries cfg files = Ok sitemap -> Forall slashed sitemap.
Proof.
  unfold fileEntries.
  apply (forEach_invariant (Forall slashed) (processFile cfg files));
    [| constructor].
  intros s file s' Hs. unfold processFile.
  destruct (check cfg file (prop files file)) as [[|]|]; simpl;
    try discriminate.
  - destruct (fileEntry cfg file (prop files file)) as [entry|] eqn:E;
      [| discriminate].
    simpl. intros [= <-]. unfold sitemap_add. apply Forall_app. split; [exact Hs |].
    constructor; [exact (fileEntry_slashed _ _ E) | constructor].
  - now intros [= <-].
Qed.

(** With a serializer that accepts the entries, [run] then completes. *)
Lemma run_total (files : object) (globs : list string) :
  patterns_of (pattern cfg) = Some globs ->
  truthy (staticURLs cfg) = false ->
  (forall k v, In (k, v) files -> exists props, v = VObject props) ->
  (forall sitemap, exists xml,
      sitemap_toString (hostname cfg) sitemap = Ok xml) ->
  exists files', run cfg files = Ok files'.
Proof.
  intros Hglobs Hstatic Hrecords Hxml.
  destruct (collect_total files Hglobs Hstatic Hrecords) as [sitemap Hc].
  destruct (Hxml sitemap) as [xml Hx].
  unfold run. rewrite Hc. simpl. rewrite Hx. simpl. eauto.
Qed.

(** What [run] returns is the input mapping with one assignment made. *)
Lemma run_ok (files files' : object) :
  run cfg files = Ok files' ->
  exists sitemap xml,
    collect cfg files = Ok sitemap
    /\ sitemap_toString (hostname cfg) sitemap = Ok xml
    /\ files' = set (ToString (output cfg)) (artifact xml) files.
Proof.
  unfold run. destruct (collect cfg files) as [sitemap|]; [| discriminate].
  simpl. destruct (sitemap_toString (hostname cfg) sitemap) as [xml|] eqn:Ex;
    [| discriminate].
  simpl. intros [= <-]. exists sitemap, xml. now repeat split.
Qed.

End Run.

(** ** Steps of the two loops *)

Section Loops.

Context {rt : Runtime}.
Variable cfg : config.

(** [forEach] only ever appends when its step does. *)
Lemma forEach_appends {A : Type} (f : list object -> A -> result (list object))
      (step : A -> list object -> Prop) (xs : list A) :
  (forall s x, In x xs ->
     exists added, f s x = Ok (s ++ added)%list /\ step x added) ->
  forall s, exists addeds,
    forEach f xs s = Ok (s ++ concat addeds)%list
    /\ Forall2 step xs addeds.
Proof.
  induction xs as [|x xs IH]; intros Hf s.
  - exists []. simpl. rewrite app_nil_r. split; [reflexivity | constructor].
  - destruct (Hf s x (or_introl eq_refl)) as (added & Hx & Hstep).
    destruct (IH (fun s0 y Hy => Hf s0 y (or_intror Hy)) (s ++ added)%list)
      as (addeds & Hrest & Hall).
    exists (added :: addeds). simpl. rewrite Hx. simpl. rewrite Hrest.
    rewrite app_assoc. split; [reflexivity | now constructor].
Qed.

(** A step that throws makes [forEach] throw, when no other error can
    come before it. *)
Lemma forEach_throws {A S : Type} (f : S -> A -> result S) (e : error)
      (xs : list A) (x : A) :
  In x xs ->
  (forall s, f s x = Throw e) ->
  (forall s y e', f s y = Throw e' -> e' = e) ->
  forall s, forEach f xs s = Throw e.
Proof.
  intros Hin Hx Honly. induction xs as [|y xs IH]; [contradiction |].
  intros s. simpl. destruct Hin as [-> | Hin].
  - now rewrite Hx.
  - destruct (f s y) as [s'|e'] eqn:E; simpl.
    + now apply IH.
    + now rewrite (Honly _ _ _ E).
Qed.

Lemma metaEntry_throws (frontmatter : value) (e : error) :
  metaEntry cfg frontmatter = Throw e -> e = TypeError.
Proof. destruct frontmatter; simpl; intros H; now inversion H. Qed.

Lemma buildUrl_throws (file : string) (frontmatter : value) (e : error) :
  buildUrl cfg file frontmatter = Throw e -> e = TypeError.
Proof.
  unfold buildUrl, buildUrl_base.
  destruct frontmatter; simpl; intros H; now inversion H.
Qed.

Lemma fileEntry_throws (file : string) (frontmatter : value) (e : error) :
  fileEntry cfg file frontmatter = Throw e -> e = TypeError.
Proof.
  unfold fileEntry.
  destruct (metaEntry cfg frontmatter) as [meta|e'] eqn:Em; simpl.
  - destruct (buildUrl cfg file frontmatter) as [url|e'] eqn:Eu; simpl;
      [discriminate |].
    intros [= <-]. exact (buildUrl_throws _ _ Eu).
  - intros [= <-]. exact (metaEntry_throws _ Em).
Qed.

Lemma multimatch_reduce_throws (paths : list string) (patterns : list value)
      (ret : list string) (e : error) :
  multimatch_reduce paths patterns ret = Throw e -> e = TypeError.
Proof.
  revert ret. induction patterns as [|pat patterns IH]; intros ret; simpl;
    [discriminate |].
  unfold multimatch_step.
  destruct pat; simpl; try (intros H; now inversion H).
  destruct (Str.startsWithChar "!" s); simpl; apply IH.
Qed.

Lemma check_throws (file : string) (frontmatter : value) (e : error) :
  check cfg file frontmatter = Throw e -> e = TypeError.
Proof.
  unfold check.
  destruct (multimatch [file] (pattern cfg)) as [m|e'] eqn:Em; simpl.
  - destruct (negb (truthy (first_match m))); [discriminate |].
    destruct (get frontmatter "private") as [p|e'] eqn:Eg; simpl.
    + destruct (truthy p); discriminate.
    + intros [= <-]. exact (get_throws _ _ Eg).
  - intros [= <-]. unfold multimatch in Em.
    destruct (arrify (pattern cfg)); [discriminate |].
    exact (multimatch_reduce_throws _ _ _ Em).
Qed.

Lemma processFile_throws (files : object) (sitemap : list object)
      (file : string) (e : error) :
  processFile cfg files sitemap file = Throw e -> e = TypeError.
Proof.
  unfold processFile.
  destruct (check cfg file (prop files file)) as [b|e'] eqn:Ec; simpl.
  - destruct (negb b); [discriminate |].
    destruct (fileEntry cfg file (prop files file)) as [entry|e'] eqn:Ee;
      simpl; [discriminate |].
    intros [= <-]. exact (fileEntry_throws _ _ Ee).
  - intros [= <-]. exact (check_throws _ _ Ec).
Qed.

(** Off [null] and [undefined] an entry is always built. *)
Lemma staticEntry_total (frontmatter : value) :
  nullish frontmatter = false ->
  exists entry, staticEntry cfg frontmatter = Ok entry.
Proof.
  unfold staticEntry, metaEntry.
  destruct frontmatter; simpl; try discriminate; eauto.
Qed.

Lemma staticEntry_nullish (frontmatter : value) :
  nullish frontmatter = true -> staticEntry cfg frontmatter = Throw TypeError.
Proof. destruct frontmatter; simpl; try discriminate; reflexivity. Qed.

Lemma staticEntry_throws (frontmatter : value) (e : error) :
  staticEntry cfg frontmatter = Throw e -> e = TypeError.
Proof.
  destruct (nullish frontmatter) eqn:E.
  - rewrite (staticEntry_nullish _ E). now intros [= <-].
  - destruct (staticEntry_total _ E) as [entry ->]. discriminate.
Qed.

(** What the file loop does with one file whose metadata is a record. *)
Lemma processFile_object (files : object) (globs : list string)
      (sitemap : list object) (file : string) (props : object) :
  patterns_of (pattern cfg) = Some globs ->
  prop files file = VObject props ->
  exists added,
    processFile cfg files sitemap file = Ok (sitemap ++ added)%list
    /\ if included globs files file
       then exists entry,
           fileEntry cfg file (prop files file) = Ok entry
           /\ added = [entry]
       else added = [].
Proof.
  intros Hglobs Hprops. unfold processFile, included.
  rewrite (check_any cfg file (prop files file) Hglobs), Hprops.
  cbn [is_private].
  destruct (selected file globs && negb (Str.isEmpty file));
    cbn [andb negb bind].
  - destruct (truthy (prop props "private")); cbn [andb negb bind].
    + exists []. now rewrite app_nil_r.
    + destruct (fileEntry_object cfg file props) as (meta & url & _ & _ & Hf).
      rewrite Hf. cbn [bind]. exists [set "url" (VString url) meta].
      split; [reflexivity |].
      exists (set "url" (VString url) meta). now split.
  - exists []. now rewrite app_nil_r.
Qed.

End Loops.

Lemma concat_singletons {A B : Type} (P : A -> B -> Prop) (xs : list A)
      (addeds : list (list B)) :
  Forall2 (fun x added => exists e, P x e /\ added = [e]) xs addeds ->
  Forall2 P xs (concat addeds).
Proof.
  induction 1 as [|x added xs addeds (e & He & ->) _ IH]; simpl;
    [constructor | now constructor].
Qed.

Lemma concat_filtered {A B : Type} (P : A -> B -> Prop) (keep : A -> bool)
      (xs : list A) (addeds : list (list B)) :
  Forall2 (fun x added =>
             if keep x then exists e, P x e /\ added = [e] else added = [])
          xs addeds ->
  Forall2 P (filter keep xs) (concat addeds).
Proof.
  induction 1 as [|x added xs addeds Hx _ IH]; simpl; [constructor |].
  destruct (keep x).
  - destruct Hx as (e & He & ->). now constructor.
  - now subst added.
Qed.

Lemma Forall2_In_impl {A B : Type} (P Q : A -> B -> Prop) (xs : list A)
      (ys : list B) :
  (forall x y, In x xs -> P x y -> Q x y) ->
  Forall2 P xs ys -> Forall2 Q xs ys.
Proof.
  intros H F. induction F as [|x y xs ys Hxy _ IH]; constructor.
  - apply H; [now left | exact Hxy].
  - apply IH. intros x' y' Hin. apply H. now right.
Qed.

Section Collected.

Context {rt : Runtime}.
Variable cfg : config.

(** The file loop over a build whose metadata are records. *)
Lemma fileEntries_objects (files : object) (globs : list string) :
  patterns_of (pattern cfg) = Some globs ->
  (forall k v, In (k, v) files -> exists props, v = VObject props) ->
  exists entries,
    fileEntries cfg files = Ok entries
    /\ Forall2 (fun file entry =>
                  fileEntry cfg file (prop files file) = Ok entry)
               (filter (included globs files) (keys files)) entries.
Proof.
  intros Hglobs Hrecords. unfold fileEntries.
  destruct (forEach_appends (processFile cfg files)
              (fun file added =>
                 if included globs files file
                 then exists entry,
                     fileEntry cfg file (prop files file) = Ok entry
                     /\ added = [entry]
                 else added = [])
              (keys files)) with (s := @nil object)
    as (addeds & Hrun & Hall).
  - intros s file Hin.
    destruct (prop_of_key files file Hin) as (v & Hv & Hin').
    destruct (Hrecords _ _ Hin') as [props ->].
    exact (processFile_object cfg files s file Hglobs Hv).
  - exists (concat addeds). split; [exact Hrun |].
    exact (concat_filtered _ _ Hall).
Qed.

(** The static loop over a JSON array without [null]. *)
Lemma staticEntries_array (sitemap : list object) (items : list value) :
  truthy (staticURLs cfg) = true ->
  readJSON (staticURLs cfg) = Ok (VArray items) ->
  forallb (fun r => negb (nullish r)) items = true ->
  exists staticEs,
    staticEntries cfg sitemap = Ok (sitemap ++ staticEs)%list
    /\ Forall2 (fun r entry => staticEntry cfg r = Ok entry) items staticEs.
Proof.
  intros Hstatic Hread Hitems. unfold staticEntries.
  rewrite Hstatic, Hread. cbn [bind for_in_values].
  destruct (forEach_appends (processStatic cfg)
              (fun r added =>
                 exists entry, staticEntry cfg r = Ok entry /\ added = [entry])
              items) with (s := sitemap)
    as (addeds & Hrun & Hall).
  - intros s r Hin. rewrite forallb_forall in Hitems.
    specialize (Hitems r Hin). apply negb_true_iff in Hitems.
    destruct (staticEntry_total cfg r Hitems) as [entry He].
    exists [entry]. unfold processStatic. rewrite He.
    split; [reflexivity |]. exists entry. now split.
  - exists (concat addeds). split; [exact Hrun |].
    exact (concat_singletons _ Hall).
Qed.

(** A record that is no object reads as the empty object. *)
Lemma staticEntry_any (r : value) :
  nullish r = false ->
  exists props,
    (forall k, get r k = Ok (prop props k))
    /\ staticEntry cfg r = staticEntry cfg (VObject props).
Proof.
  destruct r; try discriminate; intros _;
    try (exists []; split; [intros k |]; reflexivity).
  exists props. split; [intros k |]; reflexivity.
Qed.

Lemma meta_lastmod (props : object) (meta : object) :
  metaEntry cfg (VObject props) = Ok meta ->
  lookup "lastmod" meta = resolved_lastmod cfg (prop props "lastmod").
Proof.
  intros Hm.
  destruct (metaEntry_fields cfg props) as (meta0 & Hm0 & _ & _ & Hl & _).
  rewrite Hm in Hm0. inversion Hm0; subst meta0.
  cbv zeta in Hl. unfold defined in Hl. rewrite Hl.
  unfold resolved_lastmod. cbv zeta.
  now destruct (isundefined (js_or (prop props "lastmod") (lastmod cfg))).
Qed.

Lemma fileEntry_lastmod (file : string) (props : object) (entry : object) :
  fileEntry cfg file (VObject props) = Ok entry ->
  lookup "lastmod" entry = resolved_lastmod cfg (prop props "lastmod").
Proof.
  destruct (fileEntry_object cfg file props) as (meta & url & Hm & _ & ->).
  intros [= <-]. rewrite lookup_set_other by discriminate.
  now apply meta_lastmod.
Qed.

Lemma staticEntry_lastmod (r : value) (entry : object) :
  nullish r = false ->
  staticEntry cfg r = Ok entry ->
  exists l,
    get r "lastmod" = Ok l
    /\ lookup "lastmod" entry = resolved_lastmod cfg l.
Proof.
  intros Hr. destruct (staticEntry_any r Hr) as (props & Hget & ->).
  destruct (staticEntry_object cfg props) as (meta & Hm & ->).
  intros [= <-]. exists (prop props "lastmod"). split; [apply Hget |].
  rewrite lookup_set_other by discriminate. now apply meta_lastmod.
Qed.

Lemma staticEntry_url (r : value) (entry : object) :
  nullish r = false ->
  staticEntry cfg r = Ok entry ->
  exists p,
    get r "path" = Ok p
    /\ lookup "url" entry
       = Some (VString (if truthy p
                        then (ToString (hostname cfg) ++ "/") ++ ToString p
                        else "")).
Proof.
  intros Hr. destruct (staticEntry_any r Hr) as (props & Hget & ->).
  destruct (staticEntry_object cfg props) as (meta & _ & ->).
  intros [= <-]. exists (prop props "path"). split; [apply Hget |].
  apply lookup_set_same.
Qed.

(** What the file loop does with one file whose metadata is a record:
    nothing exactly when a rule excludes it. *)
Lemma processFile_excluded (files : object) (globs : list string)
      (sitemap : list object) (file : string) (props : object) :
  patterns_of (pattern cfg) = Some globs ->
  file <> "" ->
  prop files file = VObject props ->
  included globs files file = negb (excluded globs files file)
  /\ (processFile cfg files sitemap file = Ok sitemap <->
      excluded globs files file = true).
Proof.
  intros Hglobs Hfile Hprops.
  assert (Hsame : included globs files file
                  = negb (excluded globs files file)).
  { unfold included, excluded.
    destruct file; [contradiction |]. cbn [Str.isEmpty negb].
    rewrite andb_true_r, negb_orb. now rewrite negb_involutive. }
  split; [exact Hsame |].
  destruct (processFile_object cfg files sitemap file Hglobs Hprops)
    as (added & -> & Hadded).
  rewrite Hsame in Hadded. destruct (excluded globs files file); simpl in *.
  - subst added. rewrite app_nil_r. tauto.
  - destruct Hadded as (entry & _ & ->).
    split; [| discriminate]. intros [= H].
    apply (f_equal (@length object)) in H.
    rewrite length_app in H. simpl in H. lia.
Qed.

End Collected.

(** * The claims *)

Example plugin_example :
  plugin (rt := sample) (VString "http://example.com") = Ok example_config
  /\ plugin (rt := sample)
       (VObject [("hostname", VString "http://example.com");
                 ("priority", VNumber (Fin 0))])
     = Ok {| changefreq := VString "weekly";
             hostname := VString "http://example.com";
             lastmod := VUndefined;
             omitExtension := VUndefined;
             omitIndex := VUndefined;
             output := VString "sitemap.xml";
             pattern := VString "**/*.html";
             priority := VNumber (Fin 0);
             staticURLs := VBool false |}.
Proof. split; reflexivity. Qed.

(** C1, on the input where the code departs from it: under
    [plugin("http://example.com")], the entry of a file whose metadata is
    [{priority: 0}] has priority [0.5], the default, since line 137 takes the
    default for every falsy value. *)
Theorem zero_priority_gets_default {rt : Runtime} (file : string) :
  plugin (VString "http://example.com") = Ok example_config
  /\ exists entry,
      fileEntry example_config file (VObject [("priority", VNumber (Fin 0))])
      = Ok entry
      /\ lookup "priority" entry = Some (VNumber (Fin (1 # 2))).
Proof.
  split; [reflexivity |].
  destruct (fileEntry_object example_config file
              [("priority", VNumber (Fin 0))]) as (meta & url & Hm & _ & Hf).
  exists (set "url" (VString url) meta). split; [exact Hf |].
  rewrite lookup_set_other by discriminate.
  rewrite metaEntry_object in Hm. inversion Hm. reflexivity.
Qed.

Example zero_priority_run :
  fileEntries (rt := sample) example_config
    [("index.html", VObject [("priority", VNumber (Fin 0))])]
  = Ok [[("changefreq", VString "weekly");
         ("priority", VNumber (Fin (1 # 2)));
         ("url", VString "index.html/")]].
Proof. reflexivity. Qed.

(** The same holds of every falsy [priority] and of every configuration. *)
Lemma falsy_priority_gets_default {rt : Runtime}
      (cfg : config) (file : string) (props : object) :
  truthy (prop props "priority") = false ->
  exists entry,
    fileEntry cfg file (VObject props) = Ok entry
    /\ lookup "priority" entry
       = if isundefined (priority cfg) then None else Some (priority cfg).
Proof.
  intros Hfalsy.
  destruct (fileEntry_object cfg file props) as (meta & url & Hm & _ & Hf).
  destruct (metaEntry_fields cfg props) as (meta0 & Hm0 & _ & Hp & _).
  rewrite Hm in Hm0. inversion Hm0; subst meta0.
  exists (set "url" (VString url) meta). split; [exact Hf |].
  rewrite lookup_set_other by discriminate. rewrite Hp.
  cbv zeta. unfold defined, js_or. rewrite Hfalsy.
  now destruct (isundefined (priority cfg)).
Qed.

(** C2, amended.  Unless the file is the site's bare [index.html] under
    [omitIndex] with no canonical URL, the base of the url is given by four
    rules, the first applicable one winning: a non-empty string
    [canonical]; else, under [omitIndex] and for a path whose last segment
    is [index.html], the path without the text [index.html] at its end;
    else, under [omitExtension], the path without its extension; else the
    path. *)
Theorem url_base_rules {rt : Runtime}
        (cfg : config) (file : string) (props : object) :
  bare_index cfg file props = false ->
  buildUrl_base cfg file (VObject props) = Ok (amended_base cfg file props).
Proof.
  intros Hbare. unfold amended_base.
  destruct (prop props "canonical") as [| | | |[|a c]| | | |] eqn:Ec;
    try (now apply base_canonical);
    (rewrite base_path by (now rewrite Ec); f_equal; unfold path_rules;
     unfold bare_index in Hbare; rewrite Ec, andb_true_r in Hbare;
     cbv zeta;
     destruct (truthy (omitIndex cfg)) eqn:Ei; simpl in *;
     [ destruct (String.eqb (path.basename (slash file)) "index.html") eqn:Eb;
       simpl;
       [ destruct (chompRight (slash file) "index.html") eqn:Ech; simpl;
         [ exfalso; destruct (@chompRight_empty _ _ Ech) as [E | E];
           rewrite E in *; [discriminate Eb | discriminate Hbare]
         | reflexivity ]
       | ]
     | ];
     (destruct (truthy (omitExtension cfg)); simpl; [| reflexivity];
      destruct (chompRight (slash file) (path.extname (slash file))) eqn:Ech;
      simpl; [| reflexivity];
      destruct (@chompRight_empty _ _ Ech) as [E | E];
      [exact E | symmetry in E; exact (@extname_proper _ E)])).
Qed.

Lemma url_base_rules_witness :
  bare_index (rt := sample) omitIndex_config "blog/index.html" [] = false
  /\ buildUrl_base (rt := sample) omitIndex_config "blog/index.html"
       (VObject [])
     = Ok (amended_base (rt := sample) omitIndex_config "blog/index.html" []).
Proof.
  split; [reflexivity |].
  apply (url_base_rules (rt := sample)). reflexivity.
Defined.

(** C2 as stated fails: an empty string [canonical] is not used as the
    base; the path is. *)
Lemma empty_canonical_falls_through :
  buildUrl_base (rt := sample) example_config "about.html"
    (VObject [("canonical", VString "")])
  = Ok "about.html"
  /\ claimed_base (rt := sample) example_config "about.html"
       [("canonical", VString "")]
     = "".
Proof. split; reflexivity. Qed.

(** The case the amended rules leave out: for the bare [index.html] under
    [omitIndex] the stripped base is empty, the later rules run, and the url
    keeps the file name. *)
Example bare_index_url :
  buildUrl (rt := sample) omitIndex_config "index.html" (VObject [])
  = Ok "index.html/"
  /\ buildUrl (rt := sample) omitIndex_config "blog/index.html" (VObject [])
     = Ok "blog/".
Proof. split; reflexivity. Qed.

(** C3.  The url of the entry built for a file ends with a slash: after the
    four rules have produced the base (a [canonical] value included), a
    slash is appended exactly when the base does not end with one, so the
    url is never empty and always ends with a slash; and so does the url of
    every entry collected from the build files. *)
Theorem file_url_ends_with_slash {rt : Runtime} (cfg : config) :
  (forall file props,
     exists base entry,
       buildUrl_base cfg file (VObject props) = Ok base
       /\ fileEntry cfg file (VObject props) = Ok entry
       /\ lookup "url" entry
          = Some (VString (if Str.endsWith base "/" then base
                           else base ++ "/"))
       /\ Str.endsWith (if Str.endsWith base "/" then base else base ++ "/")
                       "/"
          = true)
  /\ (forall files sitemap,
        fileEntries cfg files = Ok sitemap -> Forall slashed sitemap).
Proof.
  split; [| apply fileEntries_slashed].
  intros file props.
  destruct (buildUrl_base_total cfg file props) as [base Hbase].
  destruct (fileEntry_object cfg file props) as (meta & url & _ & Hurl & Hentry).
  rewrite (buildUrl_of_base Hbase) in Hurl. inversion Hurl; subst url.
  exists base, (set "url" (VString (if Str.endsWith base "/" then base
                                    else base ++ "/")) meta).
  split; [exact Hbase |]. split; [exact Hentry |].
  split; [apply lookup_set_same | apply slash_appended].
Qed.

Lemma file_url_ends_with_slash_witness :
  fileEntries (rt := sample) example_config example_files
  = Ok [ [("changefreq", VString "weekly");
          ("priority", VNumber (Fin (1 # 2)));
          ("url", VString "index.html/")];
         [("changefreq", VString "weekly");
          ("priority", VNumber (Fin (1 # 2)));
          ("lastmod", VString "Sat, 29 Feb 2020 00:00:00 GMT");
          ("url", VString "blog/post.html/")] ]
  /\ Forall slashed
       [ [("changefreq", VString "weekly");
          ("priority", VNumber (Fin (1 # 2)));
          ("url", VString "index.html/")];
         [("changefreq", VString "weekly");
          ("priority", VNumber (Fin (1 # 2)));
          ("lastmod", VString "Sat, 29 Feb 2020 00:00:00 GMT");
          ("url", VString "blog/post.html/")] ].
Proof.
  split; [reflexivity |].
  apply (proj2 (file_url_ends_with_slash (rt := sample) example_config)
               example_files).
  reflexivity.
Defined.

Example canonical_gets_a_slash :
  buildUrl (rt := sample) example_config "about.html"
    (VObject [("canonical", VString "http://example.org/about")])
  = Ok "http://example.org/about/"
  /\ buildUrl (rt := sample) example_config "about.html"
       (VObject [("canonical", VString "http://example.org/about/")])
     = Ok "http://example.org/about/".
Proof. split; reflexivity. Qed.

(** C4.  A file of the build is left out of the sitemap exactly when the
    configured globs do not select its path or its metadata has a truthy
    [private]: the loop over the files adds nothing for such a file, which
    is when [check] returns [false], and one entry for every other file, so
    the entries collected from the build are those of the files that no
    rule excludes, in the order of the files.  The globs are read from left
    to right, one behind [!] removing the paths it matches even when an
    earlier glob had added them. *)
Theorem check_excludes {rt : Runtime}
        (cfg : config) (files : object) (globs : list string) :
  patterns_of (pattern cfg) = Some globs ->
  (forall k v,
     In (k, v) files -> k <> "" /\ exists props, v = VObject props) ->
  (exists entries,
     fileEntries cfg files = Ok entries
     /\ Forall2 (fun file entry =>
                   fileEntry cfg file (prop files file) = Ok entry)
                (filter (fun file => negb (excluded globs files file))
                        (keys files))
                entries)
  /\ (forall sitemap file,
        In file (keys files) ->
        (processFile cfg files sitemap file = Ok sitemap <->
         selected file globs = false
         \/ is_private (prop files file) = true)
        /\ (check cfg file (prop files file) = Ok false <->
            selected file globs = false
            \/ is_private (prop files file) = true))
  /\ forall file pre g,
      selected file (pre ++ [g])%list
      = if Str.startsWithChar "!" g
        then selected file pre && negb (minimatch file (Str.tail g))
        else selected file pre || minimatch file g.
Proof.
  intros Hglobs Hfiles.
  assert (Hkey : forall file,
             In file (keys files) ->
             file <> "" /\ exists props, prop files file = VObject props).
  { intros file Hin. destruct (prop_of_key files file Hin) as (v & Hv & Hin').
    destruct (Hfiles _ _ Hin') as (Hne & props & ->). eauto. }
  split; [| split; [| intros file pre g; apply selected_last]].
  - destruct (fileEntries_objects cfg files Hglobs
                (fun k v H => proj2 (Hfiles k v H)))
      as (entries & Hrun & Hall).
    exists entries. split; [exact Hrun |].
    rewrite (filter_ext_in (fun file => negb (excluded globs files file))
               (included globs files)); [exact Hall |].
    intros file Hin. destruct (Hkey file Hin) as (Hne & props & Hprops).
    symmetry.
    exact (proj1 (processFile_excluded cfg files [] Hglobs Hne Hprops)).
  - intros sitemap file Hin. destruct (Hkey file Hin) as (Hne & props & Hprops).
    destruct (processFile_excluded cfg files sitemap Hglobs Hne Hprops)
      as (_ & Hstep).
    assert (Hrule : excluded globs files file = true <->
                    selected file globs = false
                    \/ is_private (prop files file) = true).
    { unfold excluded. rewrite orb_true_iff, negb_true_iff. tauto. }
    split; [now rewrite Hstep |].
    rewrite <- Hrule. unfold excluded.
    rewrite Hprops, (check_object cfg file props Hglobs).
    destruct file; [contradiction |]. cbn [Str.isEmpty negb is_private].
    rewrite andb_true_r.
    destruct (selected (String a file) globs),
      (truthy (prop props "private")); simpl; intuition congruence.
Qed.

Lemma check_excludes_witness :
  patterns_of (pattern drafts_config) = Some ["**/*.html"; "!drafts/**"]
  /\ filter (fun file =>
               negb (excluded (rt := sample) ["**/*.html"; "!drafts/**"]
                       mixed_files file))
       (keys mixed_files)
     = ["index.html"; "blog/post.html"]
  /\ exists entries,
      fileEntries (rt := sample) drafts_config mixed_files = Ok entries
      /\ Forall2 (fun file entry =>
                    fileEntry (rt := sample) drafts_config file
                      (prop mixed_files file)
                    = Ok entry)
                 (filter (fun file =>
                            negb (excluded (rt := sample)
                                    ["**/*.html"; "!drafts/**"]
                                    mixed_files file))
                    (keys mixed_files))
                 entries.
Proof.
  split; [reflexivity |]. split; [reflexivity |].
  apply (@check_excludes sample drafts_config mixed_files
           ["**/*.html"; "!drafts/**"]); [reflexivity |].
  intros k v Hin. simpl in Hin.
  repeat (destruct Hin as [[= <- <-] | Hin];
          [split; [discriminate | eauto] |]).
  contradiction.
Defined.

Example check_examples :
  check (rt := sample) drafts_config "blog/a.html" (VObject []) = Ok true
  /\ check (rt := sample) drafts_config "drafts/a.html" (VObject []) = Ok false
  /\ check (rt := sample) drafts_config "blog/a.css" (VObject []) = Ok false
  /\ check (rt := sample) drafts_config "blog/a.html"
       (VObject [("private", VBool true)]) = Ok false
  /\ check (rt := sample) example_config "drafts/a.html" (VObject []) = Ok true.
Proof. repeat split; reflexivity. Qed.

(** C5, amended.  Every record of the JSON file gets an entry in the
    sitemap, after the entries of the files, and the url of that entry is
    [hostname + "/" + record.path] when [record.path] is truthy and the
    empty string otherwise, also for a [path] that is there but is the
    empty string or [0]; nothing is appended to it. *)
Theorem static_url_is_concatenation {rt : Runtime}
        (cfg : config) (files : object) (fileEs : list object)
        (items : list value) :
  fileEntries cfg files = Ok fileEs ->
  truthy (staticURLs cfg) = true ->
  readJSON (staticURLs cfg) = Ok (VArray items) ->
  forallb (fun r => negb (nullish r)) items = true ->
  exists staticEs,
    collect cfg files = Ok (fileEs ++ staticEs)%list
    /\ Forall2 (fun r entry =>
                  exists p,
                    get r "path" = Ok p
                    /\ lookup "url" entry
                       = Some (VString
                                 (if truthy p
                                  then (ToString (hostname cfg) ++ "/")
                                       ++ ToString p
                                  else "")))
               items staticEs.
Proof.
  intros Hfiles Hstatic Hread Hitems. unfold collect.
  rewrite Hfiles. cbn [bind].
  destruct (staticEntries_array cfg fileEs Hstatic Hread Hitems)
    as (staticEs & Hrun & Hall).
  exists staticEs. split; [exact Hrun |].
  refine (@Forall2_In_impl _ _ _ _ _ _ _ Hall). intros r entry Hin Hentry.
  apply staticEntry_url; [| exact Hentry].
  rewrite forallb_forall in Hitems. now apply negb_true_iff, Hitems.
Qed.

(** For a host name and a path that are strings this is plain
    concatenation. *)
Lemma static_url_strings {rt : Runtime}
      (cfg : config) (props : object) (host p : string) :
  hostname cfg = VString host ->
  prop props "path" = VString p ->
  p <> "" ->
  exists entry,
    staticEntry cfg (VObject props) = Ok entry
    /\ lookup "url" entry = Some (VString (host ++ "/" ++ p)).
Proof.
  intros Hh Hp Hne.
  destruct (staticEntry_object cfg props) as (meta & _ & He).
  eexists. split; [exact He |]. rewrite lookup_set_same.
  unfold staticUrl. rewrite Hh, Hp. simpl.
  destruct p; [contradiction | simpl].
  do 2 f_equal. clear. induction host; simpl; congruence.
Qed.

Example static_url_example :
  staticEntry (rt := sample) example_config
    (VObject [("path", VString "external/page")])
  = Ok [("changefreq", VString "weekly");
        ("priority", VNumber (Fin (1 # 2)));
        ("url", VString "http://example.com/external/page")]
  /\ staticEntry (rt := sample) example_config (VObject [])
     = Ok [("changefreq", VString "weekly");
           ("priority", VNumber (Fin (1 # 2)));
           ("url", VString "")].
Proof. split; reflexivity. Qed.

Lemma static_url_is_concatenation_witness :
  readJSON (Runtime := sample) (staticURLs static_config)
  = Ok (VArray [VObject [("path", VString "external/page")]])
  /\ collect (rt := sample) static_config example_files
     = Ok [ [("changefreq", VString "weekly");
             ("priority", VNumber (Fin (1 # 2)));
             ("url", VString "index.html/")];
            [("changefreq", VString "weekly");
             ("priority", VNumber (Fin (1 # 2)));
             ("lastmod", VString "Sat, 29 Feb 2020 00:00:00 GMT");
             ("url", VString "blog/post.html/")];
            [("changefreq", VString "weekly");
             ("priority", VNumber (Fin (1 # 2)));
             ("url", VString "http://example.com/external/page")] ]
  /\ exists staticEs,
      collect (rt := sample) static_config example_files
      = Ok ([ [("changefreq", VString "weekly");
               ("priority", VNumber (Fin (1 # 2)));
               ("url", VString "index.html/")];
              [("changefreq", VString "weekly");
               ("priority", VNumber (Fin (1 # 2)));
               ("lastmod", VString "Sat, 29 Feb 2020 00:00:00 GMT");
               ("url", VString "blog/post.html/")] ] ++ staticEs)%list
      /\ Forall2 (fun r entry =>
                    exists p,
                      get r "path" = Ok p
                      /\ lookup "url" entry
                         = Some (VString
                                   (if truthy p
                                    then (ToString (rt := sample)
                                            (hostname static_config) ++ "/")
                                         ++ ToString (rt := sample) p
                                    else "")))
                 [VObject [("path", VString "external/page")]] staticEs.
Proof.
  split; [reflexivity |]. split; [reflexivity |].
  apply (@static_url_is_concatenation sample static_config example_files);
    reflexivity.
Defined.

(** C5 as stated fails: the second record of the JSON file has a [path],
    the empty string, for which the claimed url is the host name and a
    slash; the url of its entry is empty. *)
Lemma empty_path_gives_empty_url :
  readJSON (Runtime := empty_path_runtime) (staticURLs static_config)
  = Ok (VArray [ VObject [("path", VString "a")];
                 VObject [("path", VString EmptyString)] ])
  /\ has_key "path" [("path", VString EmptyString)] = true
  /\ claimed_static_url (rt := empty_path_runtime) static_config
       [("path", VString EmptyString)]
     = "http://example.com/"
  /\ collect (rt := empty_path_runtime) static_config []
     = Ok [ [("changefreq", VString "weekly");
             ("priority", VNumber (Fin (1 # 2)));
             ("url", VString "http://example.com/a")];
            [("changefreq", VString "weekly");
             ("priority", VNumber (Fin (1 # 2)));
             ("url", VString EmptyString)] ].
Proof. repeat split; reflexivity. Qed.

(** C6, amended.  When the transformation completes, the mapping it
    returns is the one it was given with a single assignment made to it,
    after all entries were collected from the given mapping: the output path
    holds the serialized sitemap, every other path holds what it held, no
    path but the output path is added, and the output path is a new key
    unless the given mapping already had it, in which case its old value is
    replaced. *)
Theorem output_is_written {rt : Runtime}
        (cfg : config) (files files' : object) :
  run cfg files = Ok files' ->
  let out := ToString (output cfg) in
  exists sitemap xml,
    collect cfg files = Ok sitemap
    /\ sitemap_toString (hostname cfg) sitemap = Ok xml
    /\ files' = set out (artifact xml) files
    /\ lookup out files' = Some (artifact xml)
    /\ (forall k, k <> out -> lookup k files' = lookup k files)
    /\ (forall k, In k (keys files') <-> In k (keys files) \/ k = out)
    /\ length (keys files')
       = length (keys files) + (if has_key out files then 0 else 1).
Proof.
  intros Hrun. cbv zeta.
  destruct (run_ok _ _ Hrun) as (sitemap & xml & Hc & Hx & ->). clear Hrun.
  generalize (ToString (output cfg)) as out. intros out.
  exists sitemap, xml.
  split; [exact Hc |]. split; [exact Hx |]. split; [reflexivity |].
  split; [apply lookup_set_same |].
  split; [intros k Hk; now apply lookup_set_other |].
  rewrite keys_set. destruct (has_key out files) eqn:E.
  - split; [| cbv iota; lia]. intros k. split; [auto |].
    intros [H | ->]; [exact H | now apply has_key_In].
  - split; [| rewrite length_app; reflexivity].
    intros k. rewrite in_app_iff. simpl. intuition.
Qed.

Lemma output_is_written_witness :
  run (rt := sample) example_config example_files
  = Ok (set "sitemap.xml"
          (artifact
             ("<urlset xmlns='http://www.sitemaps.org/schemas/sitemap/0.9'>"
              ++ "<url><loc>index.html/</loc>"
              ++ "<changefreq>weekly</changefreq>"
              ++ "<priority>0.5</priority></url>"
              ++ "<url><loc>blog/post.html/</loc>"
              ++ "<changefreq>weekly</changefreq>"
              ++ "<priority>0.5</priority>"
              ++ "<lastmod>Sat, 29 Feb 2020 00:00:00 GMT</lastmod></url>"
              ++ "</urlset>"))
          example_files)
  /\ exists sitemap xml,
      collect (rt := sample) example_config example_files = Ok sitemap
      /\ sitemap_toString (Runtime := sample) (hostname example_config) sitemap
         = Ok xml
      /\ lookup "sitemap.xml" (set "sitemap.xml" (artifact xml) example_files)
         = Some (artifact xml)
      /\ (forall k,
           k <> "sitemap.xml" ->
           lookup k (set "sitemap.xml" (artifact xml) example_files)
           = lookup k example_files)
      /\ length (keys (set "sitemap.xml" (artifact xml) example_files)) = 4.
Proof.
  split; [reflexivity |].
  destruct (output_is_written (rt := sample) example_config example_files
              (files' := set "sitemap.xml" _ example_files) eq_refl)
    as (sitemap & xml & Hc & Hx & Hf & Hl & Hframe & _ & Hlen).
  exists sitemap, xml. rewrite Hf in Hl, Hframe, Hlen.
  repeat split; assumption.
Defined.

(** C6 as stated fails: when the given mapping already has the output
    path, no key is new and the value of an existing key changes. *)
Lemma existing_output_is_replaced :
  run (rt := sample) example_config stale_files
  = Ok [ ("index.html", VObject [("contents", VBuffer "<h1>Home</h1>")]);
         ("sitemap.xml",
          artifact
            ("<urlset xmlns='http://www.sitemaps.org/schemas/sitemap/0.9'>"
             ++ "<url><loc>index.html/</loc>"
             ++ "<changefreq>weekly</changefreq>"
             ++ "<priority>0.5</priority></url>"
             ++ "</urlset>")) ]
  /\ lookup "sitemap.xml" stale_files
     = Some (VObject [("contents", VBuffer "<urlset/>")])
  /\ keys stale_files = ["index.html"; "sitemap.xml"].
Proof. repeat split; reflexivity. Qed.

(** C7, amended.  The [lastmod] of every entry of the sitemap, for a file
    and for a record of the JSON file alike, comes from the value resolved
    for it, the record's [lastmod] if it is truthy and else the configured
    one: when that value is not [undefined] the entry's [lastmod] is that
    value parsed as a date and rendered by [toUTCString], and otherwise the
    entry has none; a [lastmod] of the record that is there but falsy is
    passed over.  For a value that does not parse the rendering is the text
    [Invalid Date], and the entries are collected nonetheless. *)
Theorem lastmod_is_rendered {rt : Runtime}
        (cfg : config) (files : object) (globs : list string) :
  patterns_of (pattern cfg) = Some globs ->
  (forall k v, In (k, v) files -> exists props, v = VObject props) ->
  exists fileEs,
    fileEntries cfg files = Ok fileEs
    /\ Forall2 (fun file entry =>
                  exists l,
                    get (prop files file) "lastmod" = Ok l
                    /\ lookup "lastmod" entry = resolved_lastmod cfg l)
               (filter (included globs files) (keys files)) fileEs
    /\ (truthy (staticURLs cfg) = false -> collect cfg files = Ok fileEs)
    /\ (forall items,
          truthy (staticURLs cfg) = true ->
          readJSON (staticURLs cfg) = Ok (VArray items) ->
          forallb (fun r => negb (nullish r)) items = true ->
          exists staticEs,
            collect cfg files = Ok (fileEs ++ staticEs)%list
            /\ Forall2 (fun r entry =>
                          exists l,
                            get r "lastmod" = Ok l
                            /\ lookup "lastmod" entry
                               = resolved_lastmod cfg l)
                       items staticEs)
    /\ forall raw,
        toUTCString raw
        = match Date_new raw with
          | Some t => utcString t
          | None => "Invalid Date"
          end.
Proof.
  intros Hglobs Hrecords.
  destruct (fileEntries_objects cfg files Hglobs Hrecords)
    as (fileEs & Hrun & Hall).
  exists fileEs. split; [exact Hrun |]. split; [| split; [| split]].
  - refine (@Forall2_In_impl _ _ _ _ _ _ _ Hall). intros file entry Hin Hentry.
    apply filter_In in Hin. destruct Hin as [Hin _].
    destruct (prop_of_key files file Hin) as (v & Hv & Hin').
    destruct (Hrecords _ _ Hin') as [props ->].
    rewrite Hv in *. exists (prop props "lastmod").
    split; [reflexivity | exact (fileEntry_lastmod Hentry)].
  - intros Hnone. unfold collect, staticEntries. rewrite Hrun. cbn [bind].
    now rewrite Hnone.
  - intros items Hstatic Hread Hitems. unfold collect.
    rewrite Hrun. cbn [bind].
    destruct (staticEntries_array cfg fileEs Hstatic Hread Hitems)
      as (staticEs & Hrun' & Hall').
    exists staticEs. split; [exact Hrun' |].
    refine (@Forall2_In_impl _ _ _ _ _ _ _ Hall'). intros r entry Hin Hentry.
    apply staticEntry_lastmod; [| exact Hentry].
    rewrite forallb_forall in Hitems. now apply negb_true_iff, Hitems.
  - intros raw. unfold toUTCString. now destruct (Date_new raw).
Qed.

Lemma lastmod_is_rendered_witness :
  patterns_of (pattern lastmod_config) = Some ["**/*.html"]
  /\ collect (rt := sample) lastmod_config example_files
     = Ok [ [("changefreq", VString "weekly");
             ("priority", VNumber (Fin (1 # 2)));
             ("lastmod", VString "Mon, 01 Mar 2021 00:00:00 GMT");
             ("url", VString "index.html/")];
            [("changefreq", VString "weekly");
             ("priority", VNumber (Fin (1 # 2)));
             ("lastmod", VString "Sat, 29 Feb 2020 00:00:00 GMT");
             ("url", VString "blog/post.html/")];
            [("changefreq", VString "weekly");
             ("priority", VNumber (Fin (1 # 2)));
             ("lastmod", VString "Mon, 01 Mar 2021 00:00:00 GMT");
             ("url", VString "http://example.com/external/page")] ]
  /\ exists fileEs staticEs,
      fileEntries (rt := sample) lastmod_config example_files = Ok fileEs
      /\ Forall2 (fun file entry =>
                    exists l,
                      get (prop example_files file) "lastmod" = Ok l
                      /\ lookup "lastmod" entry
                         = resolved_lastmod (rt := sample) lastmod_config l)
                 ["index.html"; "blog/post.html"] fileEs
      /\ collect (rt := sample) lastmod_config example_files
         = Ok (fileEs ++ staticEs)%list
      /\ Forall2 (fun r entry =>
                    exists l,
                      get r "lastmod" = Ok l
                      /\ lookup "lastmod" entry
                         = resolved_lastmod (rt := sample) lastmod_config l)
                 [VObject [("path", VString "external/page")]] staticEs.
Proof.
  split; [reflexivity |]. split; [reflexivity |].
  destruct (@lastmod_is_rendered sample lastmod_config example_files
              ["**/*.html"] eq_refl)
    as (fileEs & Hrun & Hfiles & _ & Hstatic & _).
  - intros k v Hin. simpl in Hin.
    repeat (destruct Hin as [[= <- <-] | Hin]; [eauto |]). contradiction.
  - destruct (Hstatic [VObject [("path", VString "external/page")]]
                eq_refl eq_refl eq_refl)
      as (staticEs & Hcollect & Hrecords).
    exists fileEs, staticEs. repeat split; assumption.
Defined.

(** C7 as stated fails: the record of [index.html] gives the [lastmod]
    [0], the epoch in milliseconds, which is a value that is present and
    that parses; the entry's [lastmod] is not its rendering but that of the
    configured date. *)
Lemma falsy_record_lastmod_is_passed_over :
  prop epoch_files "index.html" = VObject [("lastmod", VNumber (Fin 0))]
  /\ defined (VNumber (Fin 0)) = true
  /\ claimed_lastmod (rt := sample) lastmod_config (VNumber (Fin 0))
     = Some (VString "Thu, 01 Jan 1970 00:00:00 GMT")
  /\ fileEntries (rt := sample) lastmod_config epoch_files
     = Ok [ [("changefreq", VString "weekly");
             ("priority", VNumber (Fin (1 # 2)));
             ("lastmod", VString "Mon, 01 Mar 2021 00:00:00 GMT");
             ("url", VString "index.html/")] ].
Proof. repeat split; reflexivity. Qed.

Example lastmod_examples :
  metaEntry (rt := sample) example_config
    (VObject [("lastmod", VString "2020-02-29")])
  = Ok [("changefreq", VString "weekly");
        ("priority", VNumber (Fin (1 # 2)));
        ("lastmod", VString "Sat, 29 Feb 2020 00:00:00 GMT")]
  /\ metaEntry (rt := sample) example_config
       (VObject [("lastmod", VString "not a date")])
     = Ok [("changefreq", VString "weekly");
           ("priority", VNumber (Fin (1 # 2)));
           ("lastmod", VString "Invalid Date")].
Proof. split; reflexivity. Qed.

(** C8.  The constructor first turns no options into the empty object and a
    string into [{hostname: string}]; it then fails with the host name
    error exactly when the [hostname] of those options is falsy (missing,
    or the empty string), and a failed construction yields no function to
    run on files. *)
Theorem hostname_is_required {rt : Runtime} (opts : value) :
  exists h,
    get (normalizeOptions opts) "hostname" = Ok h
    /\ (plugin opts = Throw ErrHostnameRequired <-> truthy h = false)
    /\ normalizeOptions opts
       = match opts with
         | VString s =>
             if Str.isEmpty s then VObject []
             else VObject [("hostname", VString s)]
         | _ => if truthy opts then opts else VObject []
         end.
Proof.
  destruct (@get_truthy _ "hostname" (normalizeOptions_truthy opts))
    as [h Hh].
  exists h. split; [exact Hh |]. split.
  - unfold plugin. cbv zeta. rewrite Hh. simpl.
    destruct (truthy h); simpl; [| tauto].
    split; [| discriminate]. intros H. exfalso.
    destruct (checkJsonFile (normalizeOptions opts)) as [[]|e] eqn:Ec;
      simpl in H.
    + apply defaults_throws in H. discriminate.
    + inversion H; subst e.
      destruct (checkJsonFile_throws _ Ec); discriminate.
  - unfold normalizeOptions, js_or.
    destruct opts as [| |b|n|[|a s]| | | |]; try reflexivity.
    + now destruct b.
    + now destruct (truthy (VNumber n)).
Qed.

Example hostname_examples :
  plugin (rt := sample) VUndefined = Throw ErrHostnameRequired
  /\ plugin (rt := sample) (VString "") = Throw ErrHostnameRequired
  /\ plugin (rt := sample) (VObject []) = Throw ErrHostnameRequired
  /\ plugin (rt := sample) (VObject [("hostname", VString "")])
     = Throw ErrHostnameRequired
  /\ plugin (rt := sample) (VObject [("jsonFile", VString "urls.txt")])
     = Throw ErrHostnameRequired.
Proof. repeat split; reflexivity. Qed.

(** C9.  With a host name given, the constructor fails with the JSON file
    error exactly when [jsonFile] is a non-empty string whose extension, as
    [path.extname] gives it, differs from [.json] (upper case differs); a
    falsy [jsonFile] is not looked at, and construction succeeds. *)
Theorem jsonFile_must_be_json {rt : Runtime} (props : object) :
  truthy (prop props "hostname") = true ->
  (plugin (VObject props) = Throw ErrJsonFileExtension <->
   exists f, prop props "jsonFile" = VString f
             /\ f <> "" /\ path.extname f <> ".json")
  /\ (truthy (prop props "jsonFile") = false ->
      plugin (VObject props) = Ok (resolve props))
  /\ (forall f, prop props "jsonFile" = VString f ->
                path.extname f = ".json" ->
                plugin (VObject props) = Ok (resolve props)).
Proof.
  intros Hhost. rewrite plugin_object, Hhost, checkJsonFile_object.
  split; [| split].
  - destruct (prop props "jsonFile") as [| |b|n|f| | | |] eqn:Ej.
    1-4, 6-9:
      (split; [| intros (f' & Hf & _); discriminate];
       try (simpl; discriminate);
       try (destruct b; simpl; discriminate);
       try (destruct (truthy (VNumber n)); simpl; discriminate)).
    destruct f as [|a f].
    + simpl.
      split; [discriminate | intros (f' & [= <-] & Hne & _); now elim Hne].
    + change (truthy (VString (String a f))) with true. cbv iota.
      destruct (String.eqb (path.extname (String a f)) ".json") eqn:Ee;
        cbn [bind].
      * apply String.eqb_eq in Ee.
        split; [discriminate | intros (f' & [= <-] & _ & Hne); contradiction].
      * apply String.eqb_neq in Ee. split; [| reflexivity].
        intros _. exists (String a f). repeat split; [discriminate | exact Ee].
  - now intros ->.
  - intros f -> Hext. apply String.eqb_eq in Hext. rewrite Hext.
    now destruct (truthy (VString f)).
Qed.

Lemma jsonFile_must_be_json_witness :
  truthy (prop upper_case_options "hostname") = true
  /\ path.extname "urls.JSON" = ".JSON"
  /\ plugin (rt := sample) (VObject upper_case_options)
     = Throw ErrJsonFileExtension.
Proof.
  split; [reflexivity |]. split; [reflexivity |].
  apply (proj1 (jsonFile_must_be_json (rt := sample) upper_case_options
                  eq_refl)).
  exists "urls.JSON".
  split; [reflexivity |]. split; [discriminate | vm_compute; discriminate].
Defined.

Example jsonFile_examples :
  plugin (rt := sample)
    (VObject [("hostname", VString "http://example.com");
              ("jsonFile", VString "urls.json")])
  = Ok static_config
  /\ plugin (rt := sample)
       (VObject [("hostname", VString "http://example.com");
                 ("jsonFile", VString "")])
     = Ok example_config
  /\ plugin (rt := sample)
       (VObject [("hostname", VString "http://example.com");
                 ("jsonFile", VString "urls.txt")])
     = Throw ErrJsonFileExtension.
Proof. repeat split; reflexivity. Qed.

(** C10, amended.  Under options the constructor accepted, the entry built
    for a file and the one built for a static record hold [changefreq] and
    [priority] always, [url], and [lastmod] unless the record's [lastmod] is
    falsy and the options give none; they hold nothing else. *)
Theorem entry_has_changefreq_and_priority {rt : Runtime}
        (opts : value) (cfg : config) (file : string) (props : object) :
  plugin opts = Ok cfg ->
  exists fileE staticE,
    fileEntry cfg file (VObject props) = Ok fileE
    /\ staticEntry cfg (VObject props) = Ok staticE
    /\ keys fileE = entry_keys cfg props
    /\ keys staticE = entry_keys cfg props
    /\ (has_key "lastmod" fileE = false <->
        truthy (prop props "lastmod") = false /\ lastmod cfg = VUndefined).
Proof.
  intros Hplugin. destruct (plugin_ok _ Hplugin) as (o & _ & _ & _ & ->).
  destruct (fileEntry_object (resolve o) file props)
    as (meta & url & Hm & _ & Hf).
  destruct (staticEntry_object (resolve o) props) as (meta' & Hm' & Hs).
  rewrite Hm in Hm'. inversion Hm'; subst meta'.
  destruct (meta_keys o props) as (meta0 & Hm0 & Hk).
  rewrite Hm in Hm0. inversion Hm0; subst meta0.
  assert (Hnot : ~ In "url" (keys meta)).
  { rewrite Hk. destruct (lastmod_omitted (resolve o) props); simpl;
      intuition discriminate. }
  exists (set "url" (VString url) meta),
         (set "url" (VString (staticUrl (resolve o) (prop props "path"))) meta).
  split; [exact Hf |]. split; [exact Hs |].
  rewrite !keys_set_url by exact Hnot. rewrite Hk. unfold entry_keys.
  split; [now destruct (lastmod_omitted (resolve o) props) |].
  split; [now destruct (lastmod_omitted (resolve o) props) |].
  rewrite has_key_set_other by discriminate.
  assert (Hhas : has_key "lastmod" meta
                 = negb (lastmod_omitted (resolve o) props)).
  { destruct (has_key "lastmod" meta) eqn:E.
    - apply has_key_In in E. rewrite Hk in E.
      destruct (lastmod_omitted (resolve o) props); [| reflexivity].
      simpl in E. intuition discriminate.
    - destruct (lastmod_omitted (resolve o) props); [reflexivity |].
      assert (In "lastmod" (keys meta)) as Hin by (rewrite Hk; simpl; auto).
      apply has_key_In in Hin. congruence. }
  rewrite Hhas. unfold lastmod_omitted.
  destruct (truthy (prop props "lastmod")); simpl.
  - split; [discriminate | intros [? _]; discriminate].
  - destruct (prop o "lastmod"); simpl;
      intuition (try discriminate; try congruence).
Qed.

Lemma entry_has_changefreq_and_priority_witness :
  plugin (rt := sample) (VString "http://example.com") = Ok example_config
  /\ exists fileE staticE,
      fileEntry (rt := sample) example_config "blog/a.html"
        (VObject [("lastmod", VString "2020-02-29")])
      = Ok fileE
      /\ staticEntry (rt := sample) example_config
           (VObject [("lastmod", VString "2020-02-29")])
         = Ok staticE
      /\ keys fileE
         = entry_keys example_config [("lastmod", VString "2020-02-29")]
      /\ keys staticE
         = entry_keys example_config [("lastmod", VString "2020-02-29")]
      /\ (has_key "lastmod" fileE = false <->
          truthy (prop [("lastmod", VString "2020-02-29")] "lastmod") = false
          /\ lastmod example_config = VUndefined).
Proof.
  split; [reflexivity |].
  apply (entry_has_changefreq_and_priority (rt := sample)
           (VString "http://example.com")).
  reflexivity.
Defined.

(** C10 as stated fails: the record gives the defined value [0] (the epoch,
    in milliseconds), the options give none, and the entry has no
    [lastmod]. *)
Lemma falsy_lastmod_is_dropped :
  plugin (rt := sample) (VString "http://example.com") = Ok example_config
  /\ isundefined (prop [("lastmod", VNumber (Fin 0))] "lastmod") = false
  /\ fileEntry (rt := sample) example_config "blog/a.html"
       (VObject [("lastmod", VNumber (Fin 0))])
     = Ok [("changefreq", VString "weekly");
           ("priority", VNumber (Fin (1 # 2)));
           ("url", VString "blog/a.html/")].
Proof. repeat split; reflexivity. Qed.

(** * Further properties of the code *)

(** ** Helpers *)

Lemma truthy_or_default (a b : value) :
  truthy b = true -> truthy (js_or a b) = true.
Proof. unfold js_or. intros H. now destruct (truthy a) eqn:E. Qed.

Lemma strings_of_strings (globs : list string) :
  strings_of (map VString globs) = Some globs.
Proof.
  induction globs as [|g globs IH]; simpl; [reflexivity | now rewrite IH].
Qed.

Lemma negations_select_nothing {rt : Runtime} (file : string)
      (globs : list string) :
  forallb (Str.startsWithChar "!") globs = true ->
  selected file globs = false.
Proof.
  unfold selected. induction globs as [|g globs IH]; simpl; [reflexivity |].
  intros H. apply andb_true_iff in H. destruct H as [Hg Hrest].
  rewrite Hg. simpl. now apply IH.
Qed.

(** ** [chompRight] (lines 64-70) *)

(** X1.  [chompRight] removes one trailing occurrence of the suffix and
    nothing else: it undoes appending the suffix, and appending the suffix
    again to what it returns for an input that ends with it gives the input
    back; an input that does not end with the suffix is returned as it
    is. *)
Theorem chompRight_removes_one_suffix (input suffix p : string) :
  chompRight (p ++ suffix) suffix = p
  /\ (if Str.endsWith input suffix
      then chompRight input suffix ++ suffix
      else chompRight input suffix)
     = input.
Proof.
  split; [apply chompRight_append |].
  destruct (Str.endsWith input suffix) eqn:E.
  - apply endsWith_iff in E. destruct E as [q ->].
    now rewrite chompRight_append.
  - now apply chompRight_other.
Qed.

(** ** The constructor (lines 33-62) *)

(** X2.  A non-empty string given as options is the host name of options
    that are otherwise all defaults: construction succeeds, with the result
    of the object form [{hostname: string}]. *)
Theorem string_options_are_the_hostname {rt : Runtime} (a : ascii) (s : string) :
  plugin (VString (String a s))
  = plugin (VObject [("hostname", VString (String a s))])
  /\ plugin (VString (String a s))
     = Ok {| changefreq := VString "weekly";
             hostname := VString (String a s);
             lastmod := VUndefined;
             omitExtension := VUndefined;
             omitIndex := VUndefined;
             output := VString "sitemap.xml";
             pattern := VString "**/*.html";
             priority := VNumber (Fin (1 # 2));
             staticURLs := VBool false |}.
Proof. split; reflexivity. Qed.

(** X3.  What the constructor hands to the transformation is usable: the
    host name, [changefreq], the output path and the pattern are truthy,
    the priority is not [NaN], and the JSON file is either [false] or a
    string whose extension is [.json]. *)
Theorem resolved_options_are_usable {rt : Runtime} (opts : value) (cfg : config) :
  plugin opts = Ok cfg ->
  truthy (hostname cfg) = true
  /\ truthy (changefreq cfg) = true
  /\ truthy (output cfg) = true
  /\ truthy (pattern cfg) = true
  /\ isNaN (priority cfg) = false
  /\ (staticURLs cfg = VBool false
      \/ exists f, staticURLs cfg = VString f /\ path.extname f = ".json").
Proof.
  intros H. destruct (plugin_ok _ H) as (o & _ & Hhost & Hjson & ->).
  split; [exact Hhost |].
  split; [now apply truthy_or_default |].
  split; [now apply truthy_or_default |].
  split; [now apply truthy_or_default |].
  split.
  - simpl. now destruct (isNaN (prop o "priority")) eqn:E.
  - rewrite checkJsonFile_object in Hjson. simpl. unfold js_or.
    destruct (truthy (prop o "jsonFile")); [| now left].
    destruct (prop o "jsonFile") as [| | | |f| | | |]; try discriminate.
    destruct (String.eqb (path.extname f) ".json") eqn:E; [| discriminate].
    right. exists f. split; [reflexivity | now apply String.eqb_eq].
Qed.

Lemma resolved_options_are_usable_witness :
  plugin (rt := sample)
    (VObject [("hostname", VString "http://example.com");
              ("jsonFile", VString "urls.json")])
  = Ok static_config
  /\ truthy (hostname static_config) = true
  /\ truthy (changefreq static_config) = true
  /\ truthy (output static_config) = true
  /\ truthy (pattern static_config) = true
  /\ isNaN (rt := sample) (priority static_config) = false
  /\ (staticURLs static_config = VBool false
      \/ exists f, staticURLs static_config = VString f
                   /\ path.extname f = ".json").
Proof.
  split; [reflexivity |].
  apply (resolved_options_are_usable (rt := sample)
           (VObject [("hostname", VString "http://example.com");
                     ("jsonFile", VString "urls.json")])).
  reflexivity.
Defined.

(** X4.  A default priority of zero given in the options is kept by the
    constructor and reaches every entry whose record has no truthy
    priority of its own, for a file and for a static record alike; so does
    every other number that is not [NaN]. *)
Theorem configured_priority_is_kept {rt : Runtime}
        (o : object) (cfg : config) (n : number) (file : string)
        (props : object) :
  plugin (VObject o) = Ok cfg ->
  prop o "priority" = VNumber n ->
  number_is_nan n = false ->
  truthy (prop props "priority") = false ->
  priority cfg = VNumber n
  /\ exists fileE staticE,
      fileEntry cfg file (VObject props) = Ok fileE
      /\ staticEntry cfg (VObject props) = Ok staticE
      /\ lookup "priority" fileE = Some (VNumber n)
      /\ lookup "priority" staticE = Some (VNumber n).
Proof.
  intros Hplugin Hprio Hnan Hfalsy.
  rewrite plugin_object in Hplugin.
  destruct (truthy (prop o "hostname")); [| discriminate].
  destruct (checkJsonFile (VObject o)) as [[]|]; [| discriminate].
  simpl in Hplugin. inversion Hplugin; subst cfg. clear Hplugin.
  assert (Hp : priority (resolve o) = VNumber n)
    by (rewrite (resolve_priority_number o Hprio); now rewrite Hnan).
  split; [exact Hp |].
  destruct (fileEntry_object (resolve o) file props)
    as (meta & url & Hm & _ & Hf).
  destruct (staticEntry_object (resolve o) props) as (meta' & Hm' & Hs).
  rewrite Hm in Hm'. inversion Hm'; subst meta'.
  destruct (metaEntry_fields (resolve o) props) as (meta0 & Hm0 & _ & Hl & _).
  rewrite Hm in Hm0. inversion Hm0; subst meta0.
  exists (set "url" (VString url) meta),
         (set "url" (VString (staticUrl (resolve o) (prop props "path"))) meta).
  split; [exact Hf |]. split; [exact Hs |].
  rewrite !lookup_set_other by discriminate. rewrite Hl.
  cbv zeta. unfold js_or. rewrite Hfalsy, Hp. simpl. auto.
Qed.

Lemma configured_priority_is_kept_witness :
  plugin (rt := sample) (VObject zero_priority_options)
  = Ok (resolve (rt := sample) zero_priority_options)
  /\ prop zero_priority_options "priority" = VNumber (Fin 0)
  /\ priority (resolve (rt := sample) zero_priority_options)
     = VNumber (Fin 0)
  /\ exists fileE staticE,
      fileEntry (rt := sample) (resolve (rt := sample) zero_priority_options)
        "index.html" (VObject [])
      = Ok fileE
      /\ staticEntry (rt := sample)
           (resolve (rt := sample) zero_priority_options) (VObject [])
         = Ok staticE
      /\ lookup "priority" fileE = Some (VNumber (Fin 0))
      /\ lookup "priority" staticE = Some (VNumber (Fin 0)).
Proof.
  split; [reflexivity |]. split; [reflexivity |].
  apply (configured_priority_is_kept (rt := sample) zero_priority_options
           (n := Fin 0) "index.html" []); reflexivity.
Defined.

(** ** The inclusion filter (lines 82-94) *)

(** X5.  [check] looks at the metadata only of a file its globs select: a
    file they do not select, and the empty path, is left out whatever its
    metadata is, [null] and [undefined] included; for a selected file,
    [null] or [undefined] metadata throws a [TypeError], a record is kept
    unless its [private] is truthy, and any other value is kept. *)
Theorem check_reads_metadata_last {rt : Runtime}
        (cfg : config) (file : string) (frontmatter : value)
        (globs : list string) :
  patterns_of (pattern cfg) = Some globs ->
  check cfg file frontmatter
  = if selected file globs && negb (Str.isEmpty file)
    then match frontmatter with
         | VUndefined | VNull => Throw TypeError
         | VObject props => Ok (negb (truthy (prop props "private")))
         | _ => Ok true
         end
    else Ok false.
Proof. apply check_any. Qed.

Lemma check_reads_metadata_last_witness :
  patterns_of (pattern drafts_config) = Some ["**/*.html"; "!drafts/**"]
  /\ check (rt := sample) drafts_config "drafts/a.html" VNull = Ok false
  /\ check (rt := sample) drafts_config "blog/a.html" VNull = Throw TypeError.
Proof.
  split; [reflexivity |].
  split;
    rewrite (check_reads_metadata_last (rt := sample) drafts_config _ _
               (globs := ["**/*.html"; "!drafts/**"]) eq_refl);
    reflexivity.
Defined.

(** X6.  A pattern option that is a list of negated globs only, the empty
    list included, selects no file: [check] leaves every file out, without
    looking at its metadata. *)
Theorem negations_alone_exclude_everything {rt : Runtime}
        (cfg : config) (globs : list string) (file : string)
        (frontmatter : value) :
  pattern cfg = VArray (map VString globs) ->
  forallb (Str.startsWithChar "!") globs = true ->
  check cfg file frontmatter = Ok false.
Proof.
  intros Hpattern Hneg.
  assert (H : patterns_of (pattern cfg) = Some globs)
    by (rewrite Hpattern; apply strings_of_strings).
  rewrite (check_any cfg file frontmatter H).
  now rewrite (negations_select_nothing file globs Hneg).
Qed.

Lemma negations_alone_exclude_everything_witness :
  pattern negated_config = VArray (map VString ["!drafts/**"])
  /\ forallb (Str.startsWithChar "!") ["!drafts/**"] = true
  /\ check (rt := sample) negated_config "blog/a.html" (VObject []) = Ok false.
Proof.
  split; [reflexivity |]. split; [reflexivity |].
  apply (negations_alone_exclude_everything (rt := sample) negated_config
           ["!drafts/**"]); reflexivity.
Defined.

(** ** Metadata of an entry (lines 135-143 and 161-169) *)

(** X7.  What a record gives takes precedence over the options: a truthy
    [changefreq] or [priority] of the record is the entry's, whatever the
    options say, and a truthy [lastmod] of the record is the one that is
    rendered; this holds for a file and for a static record. *)
Theorem record_overrides_options {rt : Runtime}
        (cfg : config) (file : string) (props : object) :
  truthy (prop props "changefreq") = true ->
  truthy (prop props "priority") = true ->
  truthy (prop props "lastmod") = true ->
  exists url,
    fileEntry cfg file (VObject props)
    = Ok [ ("changefreq", prop props "changefreq");
           ("priority", prop props "priority");
           ("lastmod", VString (toUTCString (prop props "lastmod")));
           ("url", VString url) ]
    /\ staticEntry cfg (VObject props)
       = Ok [ ("changefreq", prop props "changefreq");
              ("priority", prop props "priority");
              ("lastmod", VString (toUTCString (prop props "lastmod")));
              ("url", VString (staticUrl cfg (prop props "path"))) ].
Proof.
  intros Hc Hp Hl.
  destruct (fileEntry_object cfg file props) as (meta & url & Hm & _ & Hf).
  destruct (staticEntry_object cfg props) as (meta' & Hm' & Hs).
  rewrite Hm in Hm'. inversion Hm'; subst meta'.
  assert (Hmeta : meta = [ ("changefreq", prop props "changefreq");
                           ("priority", prop props "priority");
                           ("lastmod",
                            VString (toUTCString (prop props "lastmod"))) ]).
  { rewrite metaEntry_object in Hm. inversion Hm as [Hmeta]. clear Hm Hmeta.
    unfold resolved, js_or. rewrite Hc, Hp, Hl. unfold pickby, defined.
    cbn [filter snd].
    rewrite (truthy_not_undefined _ Hc), (truthy_not_undefined _ Hp),
      (truthy_not_undefined _ Hl).
    reflexivity. }
  exists url. rewrite Hf, Hs, Hmeta. split; reflexivity.
Qed.

Lemma record_overrides_options_witness :
  truthy (prop full_record "changefreq") = true
  /\ truthy (prop full_record "priority") = true
  /\ truthy (prop full_record "lastmod") = true
  /\ exists url,
      fileEntry (rt := sample) example_config "blog/a.html"
        (VObject full_record)
      = Ok [ ("changefreq", VString "daily");
             ("priority", VNumber (Fin (9 # 10)));
             ("lastmod", VString "Sat, 29 Feb 2020 00:00:00 GMT");
             ("url", VString url) ]
      /\ staticEntry (rt := sample) example_config (VObject full_record)
         = Ok [ ("changefreq", VString "daily");
                ("priority", VNumber (Fin (9 # 10)));
                ("lastmod", VString "Sat, 29 Feb 2020 00:00:00 GMT");
                ("url", VString "") ].
Proof.
  split; [reflexivity |]. split; [reflexivity |]. split; [reflexivity |].
  apply (record_overrides_options (rt := sample) example_config "blog/a.html"
           full_record); reflexivity.
Defined.

(** ** The two loops (lines 125-177) *)

(** X8.  When the metadata of every file is a record, the file loop builds
    one entry for each file that [check] lets through (selected by the
    globs, not private) and none for the others, in the order of the
    files; so the entries are as many as the included files. *)
Theorem file_entries_follow_the_files {rt : Runtime}
        (cfg : config) (files : object) (globs : list string) :
  patterns_of (pattern cfg) = Some globs ->
  (forall k v, In (k, v) files -> exists props, v = VObject props) ->
  exists entries,
    fileEntries cfg files = Ok entries
    /\ Forall2 (fun file entry =>
                  fileEntry cfg file (prop files file) = Ok entry)
               (filter (included globs files) (keys files)) entries
    /\ length entries = length (filter (included globs files) (keys files)).
Proof.
  intros Hglobs Hrecords. unfold fileEntries.
  destruct (forEach_appends (processFile cfg files)
              (fun file added =>
                 if included globs files file
                 then exists entry,
                     fileEntry cfg file (prop files file) = Ok entry
                     /\ added = [entry]
                 else added = [])
              (keys files)) with (s := @nil object)
    as (addeds & Hrun & Hall).
  - intros s file Hin.
    destruct (prop_of_key files file Hin) as (v & Hv & Hin').
    destruct (Hrecords _ _ Hin') as [props ->].
    exact (processFile_object cfg files s file Hglobs Hv).
  - exists (concat addeds). split; [exact Hrun |].
    pose proof (concat_filtered _ _ Hall) as H.
    split; [exact H |]. symmetry. exact (Forall2_length H).
Qed.

Lemma file_entries_follow_the_files_witness :
  patterns_of (pattern drafts_config) = Some ["**/*.html"; "!drafts/**"]
  /\ filter (included (rt := sample) ["**/*.html"; "!drafts/**"] mixed_files)
       (keys mixed_files)
     = ["index.html"; "blog/post.html"]
  /\ exists entries,
      fileEntries (rt := sample) drafts_config mixed_files = Ok entries
      /\ Forall2 (fun file entry =>
                    fileEntry (rt := sample) drafts_config file
                      (prop mixed_files file)
                    = Ok entry)
                 (filter (included (rt := sample)
                            ["**/*.html"; "!drafts/**"] mixed_files)
                    (keys mixed_files))
                 entries
      /\ length entries
         = length (filter (included (rt := sample)
                             ["**/*.html"; "!drafts/**"] mixed_files)
                     (keys mixed_files)).
Proof.
  split; [reflexivity |]. split; [reflexivity |].
  apply (file_entries_follow_the_files (rt := sample) drafts_config
           mixed_files (globs := ["**/*.html"; "!drafts/**"]));
    [reflexivity |].
  intros k v Hin. simpl in Hin.
  repeat (destruct Hin as [[= <- <-] | Hin]; [eauto |]). contradiction.
Defined.

(** X9.  The records of the JSON file are never filtered: when none of
    them is [null], each gets an entry, a private one and one without a
    path included, and these entries come after the entries of the files, in
    the order of the records. *)
Theorem static_records_are_never_filtered {rt : Runtime}
        (cfg : config) (files : object) (fileEs : list object)
        (records : value) :
  fileEntries cfg files = Ok fileEs ->
  truthy (staticURLs cfg) = true ->
  readJSON (staticURLs cfg) = Ok records ->
  forallb (fun r => negb (nullish r)) (for_in_values records) = true ->
  exists staticEs,
    collect cfg files = Ok (fileEs ++ staticEs)%list
    /\ Forall2 (fun r entry => staticEntry cfg r = Ok entry)
               (for_in_values records) staticEs
    /\ length staticEs = length (for_in_values records).
Proof.
  intros Hfiles Hstatic Hread Hrecords.
  unfold collect, staticEntries. rewrite Hfiles. cbn [bind].
  rewrite Hstatic, Hread. cbn [bind].
  destruct (forEach_appends (processStatic cfg)
              (fun r added =>
                 exists entry, staticEntry cfg r = Ok entry /\ added = [entry])
              (for_in_values records)) with (s := fileEs)
    as (addeds & Hrun & Hall).
  - intros s r Hin. rewrite forallb_forall in Hrecords.
    specialize (Hrecords r Hin). apply negb_true_iff in Hrecords.
    destruct (staticEntry_total cfg r Hrecords) as [entry He].
    exists [entry]. unfold processStatic. rewrite He.
    split; [reflexivity |]. exists entry. now split.
  - exists (concat addeds). split; [exact Hrun |].
    pose proof (concat_singletons _ Hall) as H.
    split; [exact H |]. symmetry. exact (Forall2_length H).
Qed.

Lemma static_records_are_never_filtered_witness :
  fileEntries (rt := private_record_runtime) static_config example_files
  = Ok [ [("changefreq", VString "weekly");
          ("priority", VNumber (Fin (1 # 2)));
          ("url", VString "index.html/")];
         [("changefreq", VString "weekly");
          ("priority", VNumber (Fin (1 # 2)));
          ("lastmod", VString "Sat, 29 Feb 2020 00:00:00 GMT");
          ("url", VString "blog/post.html/")] ]
  /\ collect (rt := private_record_runtime) static_config example_files
     = Ok [ [("changefreq", VString "weekly");
             ("priority", VNumber (Fin (1 # 2)));
             ("url", VString "index.html/")];
            [("changefreq", VString "weekly");
             ("priority", VNumber (Fin (1 # 2)));
             ("lastmod", VString "Sat, 29 Feb 2020 00:00:00 GMT");
             ("url", VString "blog/post.html/")];
            [("changefreq", VString "weekly");
             ("priority", VNumber (Fin (1 # 2)));
             ("url", VString "http://example.com/a")];
            [("changefreq", VString "weekly");
             ("priority", VNumber (Fin (1 # 2)));
             ("url", VString "")] ]
  /\ exists staticEs,
      collect (rt := private_record_runtime) static_config example_files
      = Ok ([ [("changefreq", VString "weekly");
               ("priority", VNumber (Fin (1 # 2)));
               ("url", VString "index.html/")];
              [("changefreq", VString "weekly");
               ("priority", VNumber (Fin (1 # 2)));
               ("lastmod", VString "Sat, 29 Feb 2020 00:00:00 GMT");
               ("url", VString "blog/post.html/")] ] ++ staticEs)%list
      /\ length staticEs = 2.
Proof.
  split; [reflexivity |]. split; [reflexivity |].
  destruct (static_records_are_never_filtered (rt := private_record_runtime)
              static_config example_files eq_refl eq_refl eq_refl eq_refl)
    as (staticEs & Hc & _ & Hlen).
  exists staticEs. split; [exact Hc | exact Hlen].
Defined.

(** X10.  A JSON file that cannot be read or parsed is not caught: after
    the entries of the files were built, the error is the outcome of the
    run, and no mapping is returned. *)
Theorem unreadable_json_aborts {rt : Runtime}
        (cfg : config) (files : object) (fileEs : list object) (e : error) :
  fileEntries cfg files = Ok fileEs ->
  truthy (staticURLs cfg) = true ->
  readJSON (staticURLs cfg) = Throw e ->
  run cfg files = Throw e
  /\ forall files', run cfg files <> Ok files'.
Proof.
  intros Hfiles Hstatic Hread.
  assert (H : run cfg files = Throw e).
  { unfold run, collect, staticEntries.
    rewrite Hfiles. cbn [bind]. rewrite Hstatic, Hread. reflexivity. }
  split; [exact H |]. intros files'. rewrite H. discriminate.
Qed.

Lemma unreadable_json_aborts_witness :
  truthy (staticURLs missing_config) = true
  /\ readJSON (Runtime := sample) (staticURLs missing_config)
     = Throw (ErrExternal "ENOENT")
  /\ run (rt := sample) missing_config example_files
     = Throw (ErrExternal "ENOENT").
Proof.
  split; [reflexivity |]. split; [reflexivity |].
  apply (unreadable_json_aborts (rt := sample) missing_config example_files
           eq_refl eq_refl eq_refl).
Defined.

(** X11.  A [null] among the records of the JSON file aborts the run with
    a [TypeError], whatever the other records are. *)
Theorem null_record_aborts {rt : Runtime}
        (cfg : config) (files : object) (fileEs : list object)
        (records : value) :
  fileEntries cfg files = Ok fileEs ->
  truthy (staticURLs cfg) = true ->
  readJSON (staticURLs cfg) = Ok records ->
  existsb nullish (for_in_values records) = true ->
  run cfg files = Throw TypeError.
Proof.
  intros Hfiles Hstatic Hread Hnull.
  unfold run, collect, staticEntries.
  rewrite Hfiles. cbn [bind]. rewrite Hstatic, Hread. cbn [bind].
  apply existsb_exists in Hnull. destruct Hnull as (r & Hin & Hr).
  rewrite (forEach_throws (processStatic cfg) (e := TypeError) _ r Hin);
    [reflexivity | |].
  - intros s. unfold processStatic. now rewrite (staticEntry_nullish cfg r Hr).
  - intros s y e'. unfold processStatic.
    destruct (staticEntry cfg y) as [entry|e0] eqn:E; simpl; [discriminate |].
    intros [= <-]. exact (staticEntry_throws _ _ E).
Qed.

Lemma null_record_aborts_witness :
  truthy (staticURLs static_config) = true
  /\ existsb nullish
       (for_in_values
          (VArray [ VObject [("path", VString "a"); ("private", VBool true)];
                    VNull ]))
     = true
  /\ run (rt := null_record_runtime) static_config example_files
     = Throw TypeError.
Proof.
  split; [reflexivity |]. split; [reflexivity |].
  apply (null_record_aborts (rt := null_record_runtime) static_config
           example_files eq_refl eq_refl eq_refl eq_refl).
Defined.

(** X12.  A file that the globs select and whose metadata is [null] or
    [undefined] aborts the run with a [TypeError]: no entry of any file is
    kept and no mapping is returned. *)
Theorem null_metadata_aborts {rt : Runtime}
        (cfg : config) (files : object) (globs : list string) (file : string) :
  patterns_of (pattern cfg) = Some globs ->
  In file (keys files) ->
  nullish (prop files file) = true ->
  selected file globs && negb (Str.isEmpty file) = true ->
  run cfg files = Throw TypeError.
Proof.
  intros Hglobs Hin Hnull Hsel.
  unfold run, collect, fileEntries.
  rewrite (forEach_throws (processFile cfg files) (e := TypeError) _ file Hin);
    [reflexivity | |].
  - intros s. unfold processFile.
    rewrite (check_any cfg file (prop files file) Hglobs), Hsel.
    now destruct (prop files file).
  - intros s y e'. apply processFile_throws.
Qed.

Lemma null_metadata_aborts_witness :
  patterns_of (pattern example_config) = Some ["**/*.html"]
  /\ In "blog/post.html" (keys broken_files)
  /\ nullish (prop broken_files "blog/post.html") = true
  /\ run (rt := sample) example_config broken_files = Throw TypeError.
Proof.
  split; [reflexivity |]. split; [simpl; auto |]. split; [reflexivity |].
  apply (null_metadata_aborts (rt := sample) example_config broken_files
           (globs := ["**/*.html"]) "blog/post.html");
    [reflexivity | simpl; auto | reflexivity | reflexivity].
Defined.

(** ** Running the plugin again (lines 125-150 and 180-182) *)

Section Rerun.

Context {rt : Runtime}.
Variable cfg : config.

Lemma forEach_ext {A S : Type} (f g : S -> A -> result S) (xs : list A) :
  (forall s x, In x xs -> f s x = g s x) ->
  forall s, forEach f xs s = forEach g xs s.
Proof.
  induction xs as [|x xs IH]; intros H s; simpl; [reflexivity |].
  rewrite (H s x (or_introl eq_refl)). destruct (g s x) as [s'|]; simpl;
    [| reflexivity].
  apply IH. intros s0 y Hy. apply H. now right.
Qed.

Lemma forEach_app {A S : Type} (f : S -> A -> result S) (xs ys : list A)
      (s : S) :
  forEach f (xs ++ ys)%list s = s' <- forEach f xs s ;; forEach f ys s'.
Proof.
  revert s. induction xs as [|x xs IH]; intros s; simpl; [reflexivity |].
  destruct (f s x) as [s'|]; simpl; [apply IH | reflexivity].
Qed.

Lemma set_twice (k : string) (v v' : value) (o : object) :
  set k v (set k v' o) = set k v o.
Proof.
  induction o as [|[k0 v0] o IH]; simpl.
  - now rewrite String.eqb_refl.
  - destruct (String.eqb k k0) eqn:E; simpl; rewrite E; [reflexivity |].
    now rewrite IH.
Qed.

Lemma prop_set_other (k k' : string) (v : value) (o : object) :
  k' <> k -> prop (set k v o) k' = prop o k'.
Proof. intros H. unfold prop. now rewrite (lookup_set_other v o H). Qed.

(** A file the globs do not select is passed over, whatever it holds. *)
Lemma processFile_unselected (files : object) (globs : list string)
      (sitemap : list object) (file : string) :
  patterns_of (pattern cfg) = Some globs ->
  selected file globs = false ->
  processFile cfg files sitemap file = Ok sitemap.
Proof.
  intros Hglobs Hsel. unfold processFile.
  rewrite (check_any cfg file (prop files file) Hglobs), Hsel. reflexivity.
Qed.

(** Storing something under a path the globs do not select changes no
    entry. *)
Lemma fileEntries_set (files : object) (globs : list string) (out : string)
      (v : value) :
  patterns_of (pattern cfg) = Some globs ->
  selected out globs = false ->
  fileEntries cfg (set out v files) = fileEntries cfg files.
Proof.
  intros Hglobs Hsel. unfold fileEntries.
  assert (Hsame : forall s x,
             processFile cfg (set out v files) s x = processFile cfg files s x).
  { intros s x. destruct (String.eqb x out) eqn:E.
    - apply String.eqb_eq in E. subst x.
      now rewrite !(processFile_unselected _ _ _ Hglobs Hsel).
    - apply String.eqb_neq in E. unfold processFile.
      now rewrite (prop_set_other v files E). }
  rewrite keys_set. destruct (has_key out files).
  - apply forEach_ext. intros s x _. apply Hsame.
  - rewrite forEach_app.
    rewrite (forEach_ext _ (processFile cfg files) (keys files)
               (fun s x _ => Hsame s x)).
    destruct (forEach (processFile cfg files) (keys files) []) as [s'|];
      simpl; [| reflexivity].
    now rewrite (processFile_unselected _ _ _ Hglobs Hsel).
Qed.

End Rerun.

(** X13.  When the globs do not select the output path, running the
    transformation on the mapping it returned gives that mapping again:
    the sitemap written by an earlier run is passed over, the same entries
    are collected and the same content is written. *)
Theorem rerun_is_stable {rt : Runtime}
        (cfg : config) (files files' : object) (globs : list string) :
  patterns_of (pattern cfg) = Some globs ->
  selected (ToString (output cfg)) globs = false ->
  run cfg files = Ok files' ->
  run cfg files' = Ok files'.
Proof.
  intros Hglobs Hsel Hrun.
  destruct (run_ok _ _ Hrun) as (sitemap & xml & Hc & Hx & ->).
  unfold run, collect.
  rewrite (fileEntries_set cfg files _ (artifact xml) Hglobs Hsel).
  unfold collect in Hc. rewrite Hc. cbn [bind]. rewrite Hx. cbn [bind].
  now rewrite set_twice.
Qed.

Lemma rerun_is_stable_witness :
  patterns_of (pattern example_config) = Some ["**/*.html"]
  /\ selected (rt := sample) (ToString (rt := sample) (output example_config))
       ["**/*.html"]
     = false
  /\ exists files',
      run (rt := sample) example_config example_files = Ok files'
      /\ run (rt := sample) example_config files' = Ok files'.
Proof.
  split; [reflexivity |]. split; [reflexivity |].
  eexists. split; [reflexivity |].
  apply (rerun_is_stable (rt := sample) example_config example_files
           (globs := ["**/*.html"])); reflexivity.
Defined.

(** ** [path.basename] and [path.extname] on a path with a last segment *)

Lemma append_assoc (a b c : string) : (a ++ b) ++ c = a ++ (b ++ c).
Proof. induction a as [|x a IH]; simpl; [reflexivity | now rewrite IH]. Qed.

Lemma get_append_left (a b : string) : String.get (String.length a) (a ++ b)
                                       = String.get 0 b.
Proof. induction a as [|x a IH]; simpl; [reflexivity | exact IH]. Qed.

Lemma get_append_right (a b : string) (j : nat) :
  String.get (String.length a + j) (a ++ b) = String.get j b.
Proof. induction a as [|x a IH]; simpl; [reflexivity | exact IH]. Qed.

Lemma get_every (test : ascii -> bool) (s : string) (j : nat) :
  every test s = true ->
  j < String.length s ->
  exists c, String.get j s = Some c /\ test c = true.
Proof.
  revert j. induction s as [|x s IH]; intros j H Hj; simpl in *; [lia |].
  apply andb_true_iff in H. destruct H as [Hx Hs].
  destruct j as [|j]; [eauto |]. apply IH; [exact Hs | lia].
Qed.

(** Below the end of the last segment, [basename] runs down to the
    separator before it. *)
Lemma basename_scan_name (dir name : string) (j start e : nat) :
  every inName name = true ->
  j <= String.length name ->
  path.basename_scan ((dir ++ "/") ++ name) (String.length (dir ++ "/") + j)
    start (Some e) false
  = (String.length (dir ++ "/"), Some e).
Proof.
  intros Hname. induction j as [|j IH]; intros Hj.
  - rewrite Nat.add_0_r, length_append. simpl String.length.
    rewrite Nat.add_1_r. simpl path.basename_scan.
    rewrite append_assoc, get_append_left. simpl.
    now rewrite Nat.add_1_r.
  - rewrite Nat.add_succ_r. simpl path.basename_scan.
    rewrite get_append_right.
    destruct (get_every inName name (j := j) Hname) as (c & -> & Hc); [lia |].
    unfold inName in Hc. apply negb_true_iff in Hc. rewrite Hc.
    apply IH. lia.
Qed.

Lemma basename_last_segment (dir name : string) :
  name <> "" ->
  every inName name = true ->
  path.basename (dir ++ "/" ++ name) = name.
Proof.
  intros Hne Hname. rewrite <- append_assoc. unfold path.basename.
  rewrite (length_append (dir ++ "/") name).
  destruct (String.length name) as [|j] eqn:Elen;
    [apply length_zero in Elen; contradiction |].
  rewrite Nat.add_succ_r. simpl path.basename_scan.
  rewrite get_append_right.
  destruct (get_every inName name (j := j) Hname) as (c & -> & Hc); [lia |].
  unfold inName in Hc. apply negb_true_iff in Hc. rewrite Hc.
  rewrite (basename_scan_name dir name 0 _ Hname) by lia.
  unfold Str.slice.
  replace (String.length (dir ++ "/") + j + 1 - String.length (dir ++ "/"))
    with (String.length name) by lia.
  rewrite substring_skip. apply substring_all.
Qed.

Example basename_last_segment_examples :
  path.basename ("blog" ++ "/" ++ "index.html") = "index.html"
  /\ path.basename ("" ++ "/" ++ "index.html") = "index.html".
Proof.
  split; apply basename_last_segment; (discriminate || reflexivity).
Qed.

(** Once the dot and the end are recorded and a character before the dot
    has been seen, the rest of the scan changes none of them. *)
Lemma extname_scan_settled (p : string) (k : nat) (st : path.extState)
      (d e : nat) :
  path.startDot st = Some d ->
  path.end_ st = Some e ->
  path.preDotState st <> 0%Z ->
  path.startDot (path.extname_scan p k st) = Some d
  /\ path.end_ (path.extname_scan p k st) = Some e
  /\ path.preDotState (path.extname_scan p k st) <> 0%Z.
Proof.
  revert st. induction k as [|i IH]; intros st Hd He Hp; simpl; [auto |].
  destruct (String.get i p) as [c|]; [| auto].
  destruct (path.isSlash c).
  - destruct (negb (path.matchedSlash st)); [simpl; auto | now apply IH].
  - rewrite He, Hd.
    destruct (path.isDot c).
    + destruct (negb (path.preDotState st =? 1)%Z); apply IH; simpl; auto.
      discriminate.
    + apply IH; simpl; auto. discriminate.
Qed.

(** With the end recorded and no dot seen yet, the characters of an
    extension leave the state as it is. *)
Lemma extname_scan_extension (p : string) (base j : nat) (st : path.extState)
      (e : nat) :
  (forall i, i < j ->
     exists c, String.get (base + i) p = Some c /\ inExtension c = true) ->
  path.startDot st = None ->
  path.end_ st = Some e ->
  path.extname_scan p (base + j) st = path.extname_scan p base st.
Proof.
  intros Hchars Hd He. induction j as [|j IH].
  - now rewrite Nat.add_0_r.
  - rewrite Nat.add_succ_r. simpl.
    destruct (Hchars j) as (c & -> & Hc); [lia |].
    unfold inExtension in Hc. apply andb_true_iff in Hc.
    destruct Hc as [Hs Hdot]. apply negb_true_iff in Hs, Hdot.
    rewrite Hs, Hdot, He, Hd. apply IH. intros i Hi. apply Hchars. lia.
Qed.

Lemma extname_last_extension (stem : string) (c : ascii) (ext : string) :
  path.isSlash c = false ->
  ext <> "" ->
  every inExtension ext = true ->
  path.extname (stem ++ String c ("." ++ ext)) = "." ++ ext.
Proof.
  intros Hc Hne Hext.
  set (p := stem ++ String c ("." ++ ext)).
  assert (Hp : p = (stem ++ String c ".") ++ ext)
    by (unfold p; rewrite append_assoc; reflexivity).
  set (base := String.length (stem ++ String c ".")).
  assert (Hbase : base = S (S (String.length stem)))
    by (unfold base; rewrite length_append; simpl; lia).
  assert (Hchars : forall i, i < String.length ext ->
             exists x, String.get (base + i) p = Some x
                       /\ inExtension x = true).
  { intros i Hi. rewrite Hp. unfold base. rewrite get_append_right.
    now apply get_every. }
  assert (Hdot : String.get (S (String.length stem)) p = Some "."%char).
  { unfold p. replace (S (String.length stem))
      with (String.length stem + 1) by lia.
    now rewrite get_append_right. }
  assert (Hlast : String.get (String.length stem) p = Some c)
    by (unfold p; now rewrite get_append_left).
  assert (Hlen : String.length p = base + String.length ext)
    by (rewrite Hp; apply length_append).
  destruct (String.length ext) as [|j] eqn:Elen;
    [apply length_zero in Elen; contradiction |].
  assert (Hscan : path.extname_scan p (String.length p) path.extname_init
                  = path.extname_scan p (String.length stem)
                      {| path.startDot := Some (S (String.length stem));
                         path.startPart := 0;
                         path.end_ := Some (base + j + 1);
                         path.matchedSlash := false;
                         path.preDotState :=
                           if path.isDot c then 1%Z else (-1)%Z |}).
  { rewrite Hlen.
    (* the last character of the extension records the end *)
    rewrite Nat.add_succ_r. simpl path.extname_scan.
    destruct (Hchars j) as (x & -> & Hx); [lia |].
    unfold inExtension in Hx. apply andb_true_iff in Hx.
    destruct Hx as [Hxs Hxd]. apply negb_true_iff in Hxs, Hxd.
    rewrite Hxs, Hxd. cbn [path.end_ path.startDot path.extname_init].
    (* the rest of the extension *)
    rewrite (@extname_scan_extension p base j _ (base + j + 1))
      by (try reflexivity; intros i Hi; apply Hchars; lia).
    (* the dot, then the character before it *)
    rewrite Hbase at 1. simpl path.extname_scan. rewrite Hdot.
    cbn [path.isSlash path.isDot Ascii.eqb Bool.eqb andb negb path.end_
         path.startDot path.matchedSlash path.startPart path.preDotState].
    rewrite Hlast, Hc.
    cbn [path.end_ path.startDot path.matchedSlash path.startPart
         path.preDotState].
    now destruct (path.isDot c). }
  destruct (@extname_scan_settled p (String.length stem)
              {| path.startDot := Some (S (String.length stem));
                 path.startPart := 0;
                 path.end_ := Some (base + j + 1);
                 path.matchedSlash := false;
                 path.preDotState := if path.isDot c then 1%Z else (-1)%Z |}
              (S (String.length stem)) (base + j + 1))
    as (Hd' & He' & Hp');
    [reflexivity | reflexivity | simpl; destruct (path.isDot c); discriminate |].
  unfold path.extname. fold p. cbv zeta. rewrite Hscan, Hd', He'.
  apply Z.eqb_neq in Hp'. rewrite Hp'.
  replace (S (String.length stem) =? base + j + 1 - 1)%nat with false
    by (symmetry; apply Nat.eqb_neq; lia).
  rewrite andb_false_r. simpl orb. cbv iota.
  unfold Str.slice, p.
  replace (S (String.length stem)) with (String.length (stem ++ String c ""))
    by (rewrite length_append; simpl; lia).
  replace (stem ++ String c ("." ++ ext))
    with ((stem ++ String c "") ++ ("." ++ ext))
    by (rewrite append_assoc; reflexivity).
  rewrite substring_skip.
  replace (base + j + 1 - String.length (stem ++ String c ""))
    with (String.length ("." ++ ext))
    by (rewrite Hbase, !length_append; cbn [String.length]; rewrite Elen; lia).
  apply substring_all.
Qed.

Example extname_last_extension_examples :
  path.extname ("blog/pos" ++ String "t" ("." ++ "html")) = ".html"
  /\ path.extname ("a.ta" ++ String "r" ("." ++ "gz")) = ".gz".
Proof.
  split; apply extname_last_extension; (discriminate || reflexivity).
Qed.

(** ** The urls of index pages and of pages with an extension
       (lines 97-123) *)

Lemma isEmpty_append (a b : string) (c : ascii) :
  Str.isEmpty (a ++ String c b) = false.
Proof. now destruct a. Qed.

Lemma split_last (s : string) :
  s <> "" -> exists front c, s = front ++ String c "".
Proof.
  induction s as [|x s IH]; [contradiction |]. intros _.
  destruct s as [|y s].
  - now exists "", x.
  - destruct IH as (front & c & ->); [discriminate |].
    now exists (String x front), c.
Qed.

Lemma not_a_string (props : object) :
  is_string (prop props "canonical") = false ->
  match prop props "canonical" with
  | VString (String _ _) => False
  | _ => True
  end.
Proof. now destruct (prop props "canonical"). Qed.

(** X14.  Under [omitIndex], and without a string [canonical], the url of
    an index page in a directory is the directory with its slash, whatever
    [omitExtension] is: a normalized path [dir/index.html] gives
    [dir/]. *)
Theorem index_page_maps_to_its_directory {rt : Runtime}
        (cfg : config) (file dir : string) (props : object) :
  slash file = dir ++ "/index.html" ->
  truthy (omitIndex cfg) = true ->
  is_string (prop props "canonical") = false ->
  buildUrl cfg file (VObject props) = Ok (dir ++ "/").
Proof.
  intros Hfile Hindex Hcanonical.
  assert (Hbase : buildUrl_base cfg file (VObject props) = Ok (dir ++ "/")).
  { rewrite (base_path cfg file props (not_a_string props Hcanonical)).
    cbv zeta. rewrite Hfile, Hindex.
    change (dir ++ "/index.html") with (dir ++ "/" ++ "index.html").
    rewrite (basename_last_segment dir (name := "index.html"))
      by (discriminate || reflexivity).
    rewrite <- append_assoc, chompRight_append.
    cbn [andb String.eqb Ascii.eqb Bool.eqb].
    rewrite (isEmpty_append dir "" "/"). cbn [andb].
    now rewrite (isEmpty_append dir "" "/"). }
  rewrite (buildUrl_of_base Hbase). now rewrite endsWith_append.
Qed.

Lemma index_page_maps_to_its_directory_witness :
  slash (Runtime := sample) "blog/2020/index.html"
  = "blog/2020" ++ "/index.html"
  /\ truthy (omitIndex omitIndex_config) = true
  /\ buildUrl (rt := sample) omitIndex_config "blog/2020/index.html"
       (VObject [])
     = Ok "blog/2020/".
Proof.
  split; [reflexivity |]. split; [reflexivity |].
  apply (index_page_maps_to_its_directory (rt := sample) omitIndex_config
           "blog/2020/index.html" "blog/2020" []); reflexivity.
Defined.

(** X15.  Under [omitExtension], without a string [canonical], and for a
    page that [omitIndex] does not apply to, the url is the path without
    its extension, followed by a slash: a normalized path [stem.ext], where
    [stem] does not end with a slash and [ext] holds no dot and no slash,
    gives [stem/]. *)
Theorem extension_is_dropped {rt : Runtime}
        (cfg : config) (file stem ext : string) (props : object) :
  slash file = stem ++ "." ++ ext ->
  stem <> "" ->
  Str.endsWith stem "/" = false ->
  ext <> "" ->
  every inExtension ext = true ->
  truthy (omitExtension cfg) = true ->
  truthy (omitIndex cfg)
  && String.eqb (path.basename (slash file)) "index.html" = false ->
  is_string (prop props "canonical") = false ->
  buildUrl cfg file (VObject props) = Ok (stem ++ "/").
Proof.
  intros Hfile Hstem Hslash Hext Hplain Hoption Hindex Hcanonical.
  destruct (split_last Hstem) as (front & c & Hfront).
  assert (Hc : path.isSlash c = false).
  { destruct (path.isSlash c) eqn:E; [| reflexivity].
    apply Ascii.eqb_eq in E. subst c stem.
    now rewrite endsWith_append in Hslash. }
  assert (Hextname : path.extname (slash file) = "." ++ ext).
  { rewrite Hfile, Hfront, append_assoc.
    exact (@extname_last_extension front c ext Hc Hext Hplain). }
  assert (Hbase : buildUrl_base cfg file (VObject props) = Ok stem).
  { rewrite (base_path cfg file props (not_a_string props Hcanonical)).
    cbv zeta. rewrite Hindex, Hoption, Hextname, Hfile, chompRight_append.
    cbn [andb Str.isEmpty].
    destruct stem; [contradiction | reflexivity]. }
  rewrite (buildUrl_of_base Hbase). now rewrite Hslash.
Qed.

Lemma extension_is_dropped_witness :
  slash (Runtime := sample) "blog/post.html" = "blog/post" ++ "." ++ "html"
  /\ Str.endsWith "blog/post" "/" = false
  /\ every inExtension "html" = true
  /\ buildUrl (rt := sample) omitExtension_config "blog/post.html"
       (VObject [])
     = Ok "blog/post/".
Proof.
  split; [reflexivity |]. split; [reflexivity |]. split; [reflexivity |].
  apply (@extension_is_dropped sample omitExtension_config
           "blog/post.html" "blog/post" "html" []);
    (discriminate || reflexivity).
Defined.

(** X16.  The index page at the root of the site keeps its name: under
    [omitIndex], and without a string [canonical], removing [index.html]
    from the normalized path [index.html] leaves the empty text, which the
    later rules take for no result, so the url is [index/] under
    [omitExtension] and [index.html/] otherwise, and never [/]. *)
Theorem root_index_keeps_its_name {rt : Runtime}
        (cfg : config) (file : string) (props : object) :
  slash file = "index.html" ->
  truthy (omitIndex cfg) = true ->
  is_string (prop props "canonical") = false ->
  buildUrl cfg file (VObject props)
  = Ok (if truthy (omitExtension cfg) then "index/" else "index.html/").
Proof.
  intros Hfile Hindex Hcanonical.
  assert (Hbase : buildUrl_base cfg file (VObject props)
                  = Ok (if truthy (omitExtension cfg) then "index"
                        else "index.html")).
  { rewrite (base_path cfg file props (not_a_string props Hcanonical)).
    cbv zeta. rewrite Hfile, Hindex.
    now destruct (truthy (omitExtension cfg)); vm_compute. }
  rewrite (buildUrl_of_base Hbase).
  now destruct (truthy (omitExtension cfg)).
Qed.

Lemma root_index_keeps_its_name_witness :
  slash (Runtime := sample) "index.html" = "index.html"
  /\ truthy (omitIndex omitIndex_config) = true
  /\ buildUrl (rt := sample) omitIndex_config "index.html"
       (VObject [("title", VString "Home")])
     = Ok "index.html/".
Proof.
  split; [reflexivity |]. split; [reflexivity |].
  apply (@root_index_keeps_its_name sample omitIndex_config "index.html"
           [("title", VString "Home")]); reflexivity.
Defined.
